(** * Smart Habit Tracker: the habit analysers and the two repositories

    A shallow embedding of [main.py]: the [Habit] class hierarchy
    (streak and recommendations over a pandas frame of logs) and the
    two storage classes [SQLiteRepo] and [MemoryRepo].

    Conventions of the embedding.
    - A [datetime.date] is its proleptic ordinal ([date.toordinal]), an
      integer; [d - timedelta(days=1)] is [d - 1].  [date.today()] is
      an explicit argument [today].
    - An amount or target that is stored or logged is a finite double,
      held as the rational number it is ([Q]).
    - What pandas computes from amounts is a [float]: [nan], an
      infinity or a finite double.  The reductions [sum], [mean] and
      [std] are pandas' own: how they round, in which order they add
      and whether they compensate is the library's business, so they
      are parameters of the model (the class [Reductions]) and nothing
      is assumed of them; [Binary64] gives them in IEEE binary64 for
      the evaluations on concrete frames.  Comparisons of floats are
      exact.
    - A [DataFrame] with the columns [date] and [amount] is the list of
      its rows, in row order. *)

From Stdlib Require Import ZArith QArith.
From Stdlib Require Floats.
From stdpp Require Import gmap strings list fin_maps sorting.

Local Open Scope Z_scope.

(** ** Frames and column operations *)

Abbreviation date := Z (only parsing).

Abbreviation DataFrame := (list (Z * Q)).

(** [df.empty] *)
Definition empty (df : DataFrame) : bool :=
  match df with [] => true | _ :: _ => false end.

(** [df["amount"]] *)
Definition amount_column (df : DataFrame) : list Q := snd <$> df.

(** ** Floats and the reductions of pandas *)

(** A float64 value: [nan], an infinity, or a finite double held as
    the rational number it is. *)
Inductive float := nan | num (q : Q) | inf (negative : bool).

(** The exact comparisons on rationals. *)
Definition Qge_bool (x y : Q) : bool := Qle_bool y x.
Definition Qlt_bool (x y : Q) : bool := negb (Qle_bool y x).

(** [x >= y] for a computed float [x] and a stored number [y]; every
    comparison with [nan] is [False]. *)
Definition float_ge (x : float) (y : Q) : bool :=
  match x with
  | nan => false
  | num q => Qge_bool q y
  | inf negative => negb negative
  end.

(** [x <= y], likewise. *)
Definition float_le (x : float) (y : Q) : bool :=
  match x with
  | nan => false
  | num q => Qle_bool q y
  | inf negative => negative
  end.

(** The float64 reductions of pandas over a column of values, given in
    row order. *)
Class Reductions := {
  (** [.sum()] of one group of [groupby("date")["amount"]] *)
  series_sum : list Q → float;
  (** [Series.mean()] of a non-empty column *)
  series_mean : list Q → float;
  (** [Series.std()] of a column of two or more values *)
  series_std : list Q → float
}.

(** *** Sums and means without rounding *)

(** The sum of a column in exact arithmetic: that of the daily totals
    as the specification words them. *)
Definition Qsum (xs : list Q) : Q := foldl Qplus 0%Q xs.

(** The mean of a non-empty column in exact arithmetic. *)
Definition mean (xs : list Q) : Q :=
  (Qsum xs / inject_Z (Z.of_nat (length xs)))%Q.

(** *** The reductions in binary64, adding from left to right *)

Module Binary64.

(** The double of a whole number (exact when the number is a double). *)
Definition of_Z (z : Z) : PrimFloat.float :=
  let a := Z.abs z in
  let k := Z.max 0 (Z.log2 a - 52) in
  let m := PrimFloat.of_uint63 (Uint63.of_Z (Z.shiftr a k)) in
  let x := FloatOps.Z.ldexp m k in
  if z <? 0 then PrimFloat.opp x else x.

(** The double of a stored number: the correctly rounded quotient. *)
Definition of_Q (q : Q) : PrimFloat.float :=
  PrimFloat.div (of_Z (Qnum q)) (of_Z (Z.pos (Qden q))).

(** The value of a double. *)
Definition to_float (x : PrimFloat.float) : float :=
  match FloatOps.Prim2SF x with
  | SpecFloat.S754_zero _ => num 0
  | SpecFloat.S754_infinity s => inf s
  | SpecFloat.S754_nan => nan
  | SpecFloat.S754_finite s m e =>
      let v := if 0 <=? e
               then inject_Z (Z.pos m * 2 ^ e)
               else (Z.pos m # Z.to_pos (2 ^ (- e)))%Q in
      num (Qred (if s then - v else v))
  end.

(** The finite double nearest to a decimal, as the number it is. *)
Definition double (q : Q) : Q :=
  match to_float (of_Q q) with
  | num v => v
  | _ => q
  end.

Definition sum (xs : list Q) : PrimFloat.float :=
  foldl (λ acc q, PrimFloat.add acc (of_Q q)) PrimFloat.zero xs.

Definition mean (xs : list Q) : PrimFloat.float :=
  PrimFloat.div (sum xs) (of_Z (Z.of_nat (length xs))).

Definition std (xs : list Q) : PrimFloat.float :=
  let m := mean xs in
  let squares :=
    foldl (λ acc q,
             let dev := PrimFloat.sub (of_Q q) m in
             PrimFloat.add acc (PrimFloat.mul dev dev))
          PrimFloat.zero xs in
  PrimFloat.sqrt (PrimFloat.div squares (of_Z (Z.of_nat (length xs) - 1))).

(** IEEE binary64 with the values added from left to right. *)
Definition reductions : Reductions := {|
  series_sum xs := to_float (sum xs);
  series_mean xs := to_float (mean xs);
  series_std xs := to_float (std xs)
|}.

End Binary64.

(** The arithmetic in which the analysers are evaluated on concrete
    frames below.  The frames evaluated are such that the order and
    the compensation of the additions make no difference: a group or a
    window of one or two rows, or amounts that are whole numbers; the
    frames of three decimal amounts are averaged in row order, as
    numpy adds fewer than eight values. *)
#[export] Existing Instance Binary64.reductions.

(** ** Grouping by date *)

(** The groups of [df.groupby("date")["amount"]]: for every date of the
    frame the amounts of its rows, in row order. *)
Definition groupby (df : DataFrame) : gmap Z (list Q) :=
  foldl (λ acc row, <[row.1 := default [] (acc !! row.1) ++ [row.2]]> acc) ∅ df.

Section analysers.
Context `{!Reductions}.

(** [df.groupby("date")["amount"].sum()]: a series indexed by the
    distinct dates of the frame, each with the sum of its rows. *)
Definition groupby_sum (df : DataFrame) : gmap Z float :=
  series_sum <$> groupby df.

End analysers.

(** ** The abstract class [Habit] *)

Inductive habit_class := ExerciseHabit | StudyHabit | SleepHabit.

Record Habit := mkHabit {
  cls : habit_class;
  _name : string;
  _target_per_day : Q;
  __streak_days : Z
}.

(** [Habit.__init__] *)
Definition new_habit (c : habit_class) (name : string) (target_per_day : Q) : Habit :=
  mkHabit c name target_per_day 0.

Definition target (self : Habit) : Q := _target_per_day self.

(** [d in met.index and met.loc[d]] *)
Definition in_index_and_met (met : gmap Z bool) (d : Z) : bool :=
  match met !! d with
  | Some b => b
  | None => false
  end.

(** The loop
    [while d in met.index and met.loc[d]: streak += 1; d = d - 1 day]
    on the loop state [(streak, d)].  Every iteration visits a date of
    the index that no earlier one visited, so [fuel] larger than the
    index never runs out ([while_met_exit]). *)
Fixpoint while_met (met : gmap Z bool) (fuel : nat) (streak d : Z) : Z * Z :=
  match fuel with
  | O => (streak, d)
  | S fuel' =>
      if in_index_and_met met d
      then while_met met fuel' (streak + 1) (d - 1)
      else (streak, d)
  end.

Section habit.
Context `{!Reductions}.

(** [Habit._update_streak] *)
Definition _update_streak (self : Habit) (today : Z) (logs_df : DataFrame) : Habit :=
  if empty logs_df then
    mkHabit (cls self) (_name self) (_target_per_day self) 0
  else
    let met := (λ x, float_ge x (target self)) <$> groupby_sum logs_df in
    let fuel := S (size met) in
    let streak := (while_met met fuel 0 today).1 in
    let streak :=
      if streak =? 0
      then (while_met met fuel streak (today - 1)).1
      else streak in
    mkHabit (cls self) (_name self) (_target_per_day self) streak.

(** [Habit.refresh_metrics] *)
Definition refresh_metrics (self : Habit) (today : Z) (logs_df : DataFrame) : Habit :=
  _update_streak self today logs_df.

End habit.

(** [Habit.get_streak] *)
Definition get_streak (self : Habit) : Z := __streak_days self.

(** ** The three concrete habits: [recommendation]

    The returned f-string interpolates one computed number and one of
    two or three fixed sentences; a [report] holds exactly these two
    (the decimal formatting of the number is not modelled). *)

Record report := mkReport {
  shown : option float;   (* [None] is Python's [None] *)
  tip : string
}.

(** [recent_df[recent_df["date"] >= (dt.date.today() - dt.timedelta(days=6))]] *)
Definition last7_of (today : Z) (recent_df : DataFrame) : DataFrame :=
  filter (λ row, today - 6 ≤ row.1) recent_df.

Definition REST_DAY : string := "Great pace—consider adding a rest day".
Definition INCREMENT : string := "Try 10–15% incremental increase next week".
Definition POMODORO : string := "Lock in a Pomodoro block (25/5) at a fixed hour.".
Definition SPACED : string := "Level up: add spaced-repetition review.".
Definition NO_DATA : string :=
  "No recent data. Aim for a consistent bedtime window (±30 min).".
Definition LOOKS_GOOD : string := "Bedtime consistency looks good—maintain routine.".
Definition SCREEN_OFF : string :=
  "Large variance—set a fixed screen-off time 1 hour before bed.".

(** [Series.mean()] of a boolean series: the share of [True], held as
    the exact quotient of the two counts.  For fewer than 2^50 dates
    the double of the quotient is below the double 0.6 exactly when the
    quotient is below 6/10: a quotient other than 3/5 is at least
    1/(5n) away from it, more than the doubles near 0.6 are apart. *)
Definition bool_mean (s : gmap Z bool) : Q :=
  mean ((λ b : bool, if b then 1%Q else 0%Q) <$> (snd <$> map_to_list s)).

Section recommendations.
Context `{!Reductions}.

(** [Series.std()] (ddof = 1): [nan] for fewer than two values. *)
Definition std_ddof1 (xs : list Q) : float :=
  match xs with
  | [] | [_] => nan
  | _ :: _ :: _ => series_std xs
  end.

(** [ExerciseHabit.recommendation] *)
Definition exercise_recommendation (self : Habit) (today : Z) (recent_df : DataFrame) : report :=
  let last7 := last7_of today recent_df in
  let avg := if negb (empty last7) then series_mean (amount_column last7) else num 0 in
  let tip := if float_ge avg (target self) then REST_DAY else INCREMENT in
  mkReport (Some avg) tip.

(** [StudyHabit.recommendation] *)
Definition study_consistency (self : Habit) (today : Z) (recent_df : DataFrame) : Q :=
  let last7 := last7_of today recent_df in
  if negb (empty last7)
  then bool_mean ((λ x, float_ge x (target self)) <$> groupby_sum last7)
  else 0%Q.

Definition study_recommendation (self : Habit) (today : Z) (recent_df : DataFrame) : report :=
  let consistency := study_consistency self today recent_df in
  let tip := if Qlt_bool consistency (6 # 10) then POMODORO else SPACED in
  mkReport (Some (num consistency)) tip.

(** [SleepHabit.recommendation] *)
Definition sleep_variance (today : Z) (recent_df : DataFrame) : option float :=
  let last7 := last7_of today recent_df in
  if negb (empty last7) then Some (std_ddof1 (amount_column last7)) else None.

Definition sleep_recommendation (self : Habit) (today : Z) (recent_df : DataFrame) : report :=
  let variance := sleep_variance today recent_df in
  let msg :=
    match variance with
    | None => NO_DATA
    | Some v => if float_le v (75 # 100) then LOOKS_GOOD else SCREEN_OFF
    end in
  mkReport variance msg.

(** The polymorphic call [habit_obj.recommendation(recent)]. *)
Definition recommendation (self : Habit) (today : Z) (recent_df : DataFrame) : report :=
  match cls self with
  | ExerciseHabit => exercise_recommendation self today recent_df
  | StudyHabit => study_recommendation self today recent_df
  | SleepHabit => sleep_recommendation self today recent_df
  end.

End recommendations.

(** ** [HabitFactory] *)

Definition TYPES : list (string * habit_class) :=
  [("Exercise (minutes)", ExerciseHabit);
   ("Study (minutes)", StudyHabit);
   ("Sleep (hours)", SleepHabit)].

(** [HabitFactory.create]; [None] is the [KeyError] of [TYPES[h_type]]. *)
Definition create (h_type name : string) (target_per_day : Q) : option Habit :=
  c ← (list_to_map TYPES : gmap string habit_class) !! h_type;
  Some (new_habit c name target_per_day).

(** ** Sorting as [ORDER BY] does

    The rows come out in ascending order of the key and, among equal
    keys, in the order they had, which for a table is the order of
    insertion. *)
Fixpoint insert_by {A} (key : A → Z) (x : A) (l : list A) : list A :=
  match l with
  | [] => [x]
  | y :: l' =>
      if decide (key x ≤ key y) then x :: y :: l' else y :: insert_by key x l'
  end.

Definition sort_by {A} (key : A → Z) (l : list A) : list A :=
  foldr (insert_by key) [] l.

(** ** Persistence layer

    Both repository classes offer the same five methods and the
    application calls them through one variable [repo]; the common
    signature is the class [Repository].  A method call either returns
    a value or raises, and in both cases leaves a store behind. *)

Inductive exn := IntegrityError (msg : string).

Inductive outcome (S A : Type) : Type :=
  | Returned (a : A) (s : S)
  | Raised (e : exn) (s : S).
Arguments Returned {S A} a s.
Arguments Raised {S A} e s.

(** One habit: a row of the table [habits], or the dict
    [{"id": .., "name": .., "type": .., "target": ..}] of [MemoryRepo]. *)
Record habit_row := mkHabitRow {
  row_id : Z;
  row_name : string;
  row_type : string;
  row_target : Q
}.

(** The order of [ORDER BY id DESC] and of
    [sort_values("id", ascending=False)]. *)
Definition id_desc (r1 r2 : habit_row) : Prop := row_id r2 ≤ row_id r1.

#[export] Instance id_desc_dec : RelDecision id_desc.
Proof. intros r1 r2. unfold id_desc. apply _. Defined.

Class Repository (S : Type) := {
  add_habit : S → string → string → Q → outcome S Z;
  delete_habit : S → Z → outcome S ();
  add_log : S → Z → date → Q → outcome S ();
  get_logs : S → Z → DataFrame;
  (** the stored habit with a given id, if any (what [list_habits] shows of it) *)
  habit_record : S → Z → option habit_row
}.

Module SQLiteRepo.

(** The parameters bound to the statements are values SQLite stores as
    given: habit ids within its 64-bit INTEGER and finite amounts
    (sqlite3 raises OverflowError on a larger int, and SQLite reads a
    nan as NULL); the methods are modelled on such values. *)

(** A row of the table [logs].  The column [date] holds
    [date.isoformat()], on which text order is date order, and
    [get_logs] parses it back; it is kept as the date. *)
Record logs_row := mkLogsRow {
  log_id : Z;
  habit_id : Z;
  log_date : date;
  log_amount : Q
}.

(** The database file: the two tables in rowid order and, for the
    AUTOINCREMENT keys, the largest rowid each table ever held (the
    table [sqlite_sequence]). *)
Record t := mkDb {
  habits : list habit_row;
  logs : list logs_row;
  seq_habits : Z;
  seq_logs : Z
}.

(** [_init_db] on a new file. *)
Definition init : t := mkDb [] [] 0 0.

(** A connection; [sqlite3.connect] opens it with foreign-key
    enforcement off, and the class never issues the PRAGMA. *)
Record connection := mkCon { foreign_keys : bool }.
Definition _conn : connection := mkCon false.

(** Statements run inside a transaction: the database so far, and
    either a result with the new database or an exception. *)
Definition stmt (A : Type) : Type := t → exn + (A * t).

Definition ret {A} (a : A) : stmt A := λ db, inr (a, db).
Definition bind {A B} (m : stmt A) (k : A → stmt B) : stmt B :=
  λ db, match m db with
        | inl e => inl e
        | inr (a, db') => k a db'
        end.
Notation "x ←ₛ m ; k" := (bind m (λ x, k))
  (at level 20, m at level 100, k at level 200, only parsing).
Notation "m ;;ₛ k" := (bind m (λ _, k))
  (at level 100, k at level 200, right associativity, only parsing).

(** [with self._conn() as con: body]: commit when the body returns,
    roll back and re-raise when it raises. *)
Definition with_conn {A} (body : connection → stmt A) (db : t) : outcome t A :=
  match body _conn db with
  | inr (a, db') => Returned a db'
  | inl e => Raised e db
  end.

(** The rowid an AUTOINCREMENT table gives its next row. *)
Definition next_rowid (ids : list Z) (seq : Z) : Z :=
  Z.max seq (foldr Z.max 0 ids) + 1.

(** [INSERT INTO habits(name,type,target) VALUES(?,?,?)]; the result
    is [cur.lastrowid]. *)
Definition insert_habit (name h_type : string) (target : Q) : stmt Z :=
  λ db,
    let rowid := next_rowid (row_id <$> habits db) (seq_habits db) in
    inr (rowid,
         mkDb (habits db ++ [mkHabitRow rowid name h_type target])
              (logs db) rowid (seq_logs db)).

(** [DELETE FROM logs WHERE habit_id=?] *)
Definition delete_logs (hid : Z) : stmt () :=
  λ db, inr ((), mkDb (habits db)
                      (filter (λ r, habit_id r ≠ hid) (logs db))
                      (seq_habits db) (seq_logs db)).

(** [DELETE FROM habits WHERE id=?] *)
Definition delete_habits (con : connection) (hid : Z) : stmt () :=
  λ db,
    if foreign_keys con && bool_decide (hid ∈ habit_id <$> logs db)
    then inl (IntegrityError "FOREIGN KEY constraint failed")
    else inr ((), mkDb (filter (λ r, row_id r ≠ hid) (habits db))
                       (logs db) (seq_habits db) (seq_logs db)).

(** [INSERT INTO logs(habit_id,date,amount) VALUES(?,?,?)] *)
Definition insert_log (con : connection) (hid : Z) (d : date) (amount : Q) : stmt () :=
  λ db,
    if foreign_keys con && bool_decide (hid ∉ row_id <$> habits db)
    then inl (IntegrityError "FOREIGN KEY constraint failed")
    else
      let rowid := next_rowid (log_id <$> logs db) (seq_logs db) in
      inr ((), mkDb (habits db)
                    (logs db ++ [mkLogsRow rowid hid d amount])
                    (seq_habits db) rowid).

(** The columns [date, amount] of a row. *)
Definition date_amount (r : logs_row) : date * Q := (log_date r, log_amount r).

(** [SELECT date, amount FROM logs WHERE habit_id=? ORDER BY date ASC]:
    the rows of the habit by ascending date; rows of one date come in
    the order of the table, which is the order of insertion (SQL leaves
    their order open; SQLite's sorter keeps it). *)
Definition select_logs (hid : Z) (db : t) : list (date * Q) :=
  date_amount <$> sort_by log_date (filter (λ r, habit_id r = hid) (logs db)).

Definition add_habit (db : t) (name h_type : string) (target : Q) : outcome t Z :=
  with_conn (λ con, insert_habit name h_type target) db.

Definition delete_habit (db : t) (hid : Z) : outcome t () :=
  with_conn (λ con, delete_logs hid ;;ₛ delete_habits con hid) db.

Definition add_log (db : t) (hid : Z) (d : date) (amount : Q) : outcome t () :=
  with_conn (λ con, insert_log con hid d amount) db.

Definition get_logs (db : t) (hid : Z) : DataFrame := select_logs hid db.

Definition habit_record (db : t) (hid : Z) : option habit_row :=
  head (filter (λ r, row_id r = hid) (habits db)).

(** [list_habits]: [SELECT * FROM habits ORDER BY id DESC]. *)
Definition list_habits (db : t) : list habit_row := merge_sort id_desc (habits db).

End SQLiteRepo.

#[export] Instance sqlite_repository : Repository SQLiteRepo.t := {
  add_habit := SQLiteRepo.add_habit;
  delete_habit := SQLiteRepo.delete_habit;
  add_log := SQLiteRepo.add_log;
  get_logs := SQLiteRepo.get_logs;
  habit_record := SQLiteRepo.habit_record
}.

Module MemoryRepo.

Record t := mkRepo {
  _habits : gmap Z habit_row;
  _logs : gmap Z (list (date * Q));
  _next_id : Z
}.

(** [MemoryRepo.__init__] *)
Definition init : t := mkRepo ∅ ∅ 1.

Definition add_habit (self : t) (name h_type : string) (target : Q) : outcome t Z :=
  let hid := _next_id self in
  Returned hid
    (mkRepo (<[hid := mkHabitRow hid name h_type target]> (_habits self))
            (<[hid := []]> (_logs self))
            (_next_id self + 1)).

Definition delete_habit (self : t) (hid : Z) : outcome t () :=
  Returned () (mkRepo (delete hid (_habits self))
                      (delete hid (_logs self))
                      (_next_id self)).

(** [self._logs.setdefault(habit_id, []).append((date, float(amount)))] *)
Definition add_log (self : t) (hid : Z) (d : date) (amount : Q) : outcome t () :=
  Returned () (mkRepo (_habits self)
                      (<[hid := default [] (_logs self !! hid) ++ [(d, amount)]]>
                         (_logs self))
                      (_next_id self)).

Definition get_logs (self : t) (hid : Z) : DataFrame :=
  let rows := default [] (_logs self !! hid) in
  match rows with
  | [] => []          (* [pd.DataFrame(columns=["date", "amount"])] *)
  | _ :: _ => rows    (* [pd.DataFrame(rows, columns=["date", "amount"])] *)
  end.

Definition habit_record (self : t) (hid : Z) : option habit_row :=
  _habits self !! hid.

(** [list_habits]: the dicts of [_habits.values()], sorted by id,
    largest first; the empty frame when there is no habit.  The order
    in which the values are enumerated is lost in the sort, the ids of
    the stored dicts being distinct ([memory_row_ids_are_keys]). *)
Definition list_habits (self : t) : list habit_row :=
  match (map_to_list (_habits self)).*2 with
  | [] => []
  | rows => merge_sort id_desc rows
  end.

End MemoryRepo.

#[export] Instance memory_repository : Repository MemoryRepo.t := {
  add_habit := MemoryRepo.add_habit;
  delete_habit := MemoryRepo.delete_habit;
  add_log := MemoryRepo.add_log;
  get_logs := MemoryRepo.get_logs;
  habit_record := MemoryRepo.habit_record
}.

(** [list_habits], the sixth method the application calls on [repo]. *)
Class Listing (S : Type) := {
  list_habits : S → list habit_row
}.

#[export] Instance sqlite_listing : Listing SQLiteRepo.t := {
  list_habits := SQLiteRepo.list_habits
}.

#[export] Instance memory_listing : Listing MemoryRepo.t := {
  list_habits := MemoryRepo.list_habits
}.

(** ** The application: the Daily Check-in

    [sel] is the name chosen in the select box, [hrow] the first row of
    [habits_df] with that name, and the Log button calls [add_log] with
    its id.  [None] is the [IndexError] of [.iloc[0]] on an empty
    selection. *)
Definition check_in {S} `{Repository S, Listing S}
    (repo : S) (sel : string) (d : date) (amt : Q) : option (outcome S ()) :=
  let habits_df := list_habits repo in
  match filter (λ r, row_name r = sel) habits_df with
  | [] => None
  | hrow :: _ => Some (add_log repo (row_id hrow) d amt)
  end.

(** * Vocabulary of the properties *)

(** ** Daily totals, as the specification words them *)

(** The log entries of one date. *)
Definition entries_on (d : date) (logs : DataFrame) : DataFrame :=
  filter (λ row, row.1 = d) logs.

(** The daily total of a date: the sum of its entries; no total for a
    date without entry. *)
Definition daily_total (logs : DataFrame) (d : date) : option Q :=
  match entries_on d logs with
  | [] => None
  | rows => Some (Qsum (amount_column rows))
  end.

(** A date is met when it has a daily total and the total reaches the
    target. *)
Definition day_met (tgt : Q) (logs : DataFrame) (d : date) : bool :=
  match daily_total logs d with
  | Some total => Qge_bool total tgt
  | None => false
  end.

(** ** Daily totals and met days, as the code computes them *)

Section met_days.
Context `{!Reductions}.

(** The daily total of a date in floats: pandas' sum of the amounts of
    its entries, in row order; no total for a date without entry. *)
Definition float_total (logs : DataFrame) (d : date) : option float :=
  match entries_on d logs with
  | [] => None
  | rows => Some (series_sum (amount_column rows))
  end.

(** A date is met when it has entries and their float total reaches
    the target. *)
Definition met_day (tgt : Q) (logs : DataFrame) (d : date) : bool :=
  match float_total logs d with
  | Some total => float_ge total tgt
  | None => false
  end.

End met_days.

(** ** Runs of met days *)

(** [k] consecutive days ending on [d] are met and the day before them
    is not: the run of met days that ends on [d] has length [k]. *)
Definition met_run (met : date → bool) (d : date) (k : Z) : Prop :=
  0 ≤ k ∧
  (∀ i, 0 ≤ i < k → met (d - i) = true) ∧
  met (d - k) = false.

(** Two frames hold, for every date, the same entries in the same
    order (rows of different dates may be interleaved differently). *)
Definition same_entries_per_date (df1 df2 : DataFrame) : Prop :=
  ∀ d, entries_on d df1 = entries_on d df2.

(** The distinct dates that have an entry in a frame. *)
Definition logged_dates (df : DataFrame) : list date := remove_dups (df.*1).

(** ** The metrics of the recommendations, as the specification words them *)

(** The seven calendar days of the trailing window ending today. *)
Definition window_days (today : date) : list date :=
  (λ i, today - Z.of_nat i) <$> seq 0 7.

(** The Study metric as specified: the share of the seven calendar days
    of the window whose daily total meets the target, a day without
    entry counting as not met. *)
Definition fraction_of_window_days_met (tgt : Q) (today : date) (logs : DataFrame) : Q :=
  (inject_Z (Z.of_nat (length (filter (λ d, day_met tgt logs d = true) (window_days today))))
   / 7)%Q.

(** The daily totals of the window days that have entries. *)
Definition window_daily_totals (today : date) (logs : DataFrame) : list Q :=
  omap (daily_total logs) (window_days today).

(** The Exercise metric as specified: the mean of the daily totals of
    the window days that have entries, 0 when there is none. *)
Definition mean_of_daily_totals (today : date) (logs : DataFrame) : Q :=
  match window_daily_totals today logs with
  | [] => 0%Q
  | totals => mean totals
  end.

(** The number of distinct window days that have entries. *)
Definition days_with_entries (today : date) (logs : DataFrame) : nat :=
  length (window_daily_totals today logs).

(** ** Stores and contracts of the repositories *)

(** The store a call leaves behind. *)
Definition store_of {S A} (o : outcome S A) : S :=
  match o with
  | Returned _ s => s
  | Raised _ s => s
  end.

(** The states a [MemoryRepo] object takes: the new object, and
    whatever a method call makes of a state. *)
Inductive reachable : MemoryRepo.t → Prop :=
  | reach_init : reachable MemoryRepo.init
  | reach_add_habit self name h_type tgt :
      reachable self → reachable (store_of (add_habit self name h_type tgt))
  | reach_delete_habit self hid :
      reachable self → reachable (store_of (delete_habit self hid))
  | reach_add_log self hid d amount :
      reachable self → reachable (store_of (add_log self hid d amount)).

(** The contract as stated: a log entry for an id that identifies no
    habit is rejected and the store is left as it was. *)
Definition add_log_rejects_unknown_habit (S : Type) `{Repository S} : Prop :=
  ∀ (st : S) (hid : Z) (d : date) (amount : Q),
    habit_record st hid = None → ∃ e, add_log st hid d amount = Raised e st.


(** The contract as stated, second half: deleting an id that
    identifies no habit changes nothing. *)
Definition delete_unknown_changes_nothing (S : Type) `{Repository S} : Prop :=
  ∀ (st : S) (hid : Z),
    habit_record st hid = None → delete_habit st hid = Returned () st.

(** A log entry under the id 5 of no habit, on either repository. *)
Definition orphan_logged {S} `{Repository S} (new : S) : S :=
  store_of (add_log new 5 739000 30%Q).

(** The same three calls on either repository: a habit, a log entry
    for day 739001, then one for the day before. *)
Definition logged_out_of_order {S} `{Repository S} (new : S) : S :=
  let st := store_of (add_habit new "Reading" "Study (minutes)" 60%Q) in
  let st := store_of (add_log st 1 739001 45%Q) in
  store_of (add_log st 1 739000 60%Q).

(** Two habits with one log entry each, on either repository. *)
Definition two_habits_logged {S} `{Repository S} (new : S) : S :=
  let st := store_of (add_habit new "Morning Run" "Exercise (minutes)" 30%Q) in
  let st := store_of (add_habit st "Sleep" "Sleep (hours)" 8%Q) in
  let st := store_of (add_log st 1 739000 35%Q) in
  store_of (add_log st 2 739000 7%Q).

(** The states of the database of a [SQLiteRepo]: the new file, and
    whatever a method call makes of a state. *)
Inductive sqlite_reachable : SQLiteRepo.t → Prop :=
  | sqlite_reach_init : sqlite_reachable SQLiteRepo.init
  | sqlite_reach_add_habit db name h_type tgt :
      sqlite_reachable db → sqlite_reachable (store_of (add_habit db name h_type tgt))
  | sqlite_reach_delete_habit db hid :
      sqlite_reachable db → sqlite_reachable (store_of (delete_habit db hid))
  | sqlite_reach_add_log db hid d amount :
      sqlite_reachable db → sqlite_reachable (store_of (add_log db hid d amount)).

(** The integers sqlite3 binds as a parameter: signed, 64 bits. *)
Definition sqlite_integer (z : Z) : Prop := - 2 ^ 63 ≤ z < 2 ^ 63.

(** The log entries of a habit in the table [logs], in the order of
    insertion. *)
Definition logged_rows (db : SQLiteRepo.t) (hid : Z) : DataFrame :=
  SQLiteRepo.date_amount <$>
    filter (λ r, SQLiteRepo.habit_id r = hid) (SQLiteRepo.logs db).

(** The two repositories hold the same content: the same habit under
    every id, the same log entries for every id in the same order of
    insertion, no log entries without habit, and the same next id to
    hand out. *)
Definition same_content (db : SQLiteRepo.t) (self : MemoryRepo.t) : Prop :=
  (∀ k, habit_record db k = habit_record self k) ∧
  (∀ k, logged_rows db k = get_logs self k) ∧
  (∀ k, habit_record self k = None → get_logs self k = []) ∧
  0 ≤ SQLiteRepo.seq_habits db ∧
  Forall (λ x, x ≤ SQLiteRepo.seq_habits db) (row_id <$> SQLiteRepo.habits db) ∧
  SQLiteRepo.seq_habits db + 1 = MemoryRepo._next_id self.

(** ** Sequences of calls *)

(** A mutating call on a repository. *)
Inductive call :=
  | AddHabit (name h_type : string) (tgt : Q)
  | DeleteHabit (hid : Z)
  | AddLog (hid : Z) (d : date) (amount : Q).

(** One call: the store it leaves, and the id it returned if it is an
    [add_habit] that returned. *)
Definition step {S} `{Repository S} (st : S) (c : call) : S * option Z :=
  match c with
  | AddHabit name h_type tgt =>
      match add_habit st name h_type tgt with
      | Returned hid st' => (st', Some hid)
      | Raised _ st' => (st', None)
      end
  | DeleteHabit hid => (store_of (delete_habit st hid), None)
  | AddLog hid d amount => (store_of (add_log st hid d amount), None)
  end.

(** A sequence of calls: the final store and the ids returned, in the
    order of the calls. *)
Fixpoint run {S} `{Repository S} (st : S) (calls : list call) : S * list Z :=
  match calls with
  | [] => (st, [])
  | c :: calls' =>
      let '(st', hid) := step st c in
      let '(st'', hids) := run st' calls' in
      (st'', match hid with Some h => h :: hids | None => hids end)
  end.

(** Every [add_log] of the sequence is for a habit that exists when
    the call is made, as the calls of the check-in form are. *)
Fixpoint logs_target_habits {S} `{Repository S} (st : S) (calls : list call) : Prop :=
  match calls with
  | [] => True
  | c :: calls' =>
      match c with
      | AddLog hid _ _ => habit_record st hid ≠ None
      | _ => True
      end ∧ logs_target_habits (step st c).1 calls'
  end.

(** * Properties of the analysers *)

Lemma groupby_snoc (df : DataFrame) (row : date * Q) :
  groupby (df ++ [row]) =
  <[row.1 := default [] (groupby df !! row.1) ++ [row.2]]> (groupby df).
Proof. unfold groupby. by rewrite foldl_snoc. Qed.

(** The group of a date holds the amounts of its entries, in row
    order. *)
Lemma groupby_lookup (df : DataFrame) (d : date) :
  groupby df !! d =
  match entries_on d df with
  | [] => None
  | rows => Some (amount_column rows)
  end.
Proof.
  unfold entries_on.
  induction df as [|row df IH] using rev_ind; [done|].
  rewrite groupby_snoc, filter_app.
  destruct (decide (row.1 = d)) as [<-|Hne].
  - rewrite lookup_insert_eq, IH.
    rewrite (filter_cons_True _ row []) by done. rewrite filter_nil.
    destruct (filter _ df) as [|r rows] eqn:E; simpl; [done|].
    unfold amount_column. by rewrite fmap_app.
  - rewrite lookup_insert_ne by done.
    rewrite (filter_cons_False _ row []) by (simpl; congruence).
    rewrite filter_nil, app_nil_r. apply IH.
Qed.

(** ** The backwards walk *)

Section while_met.
Variable met : gmap Z bool.

(** A run of consecutive dates that all are in the index is no
    longer than the index. *)
Lemma consecutive_dates_bound {A} (m : gmap Z A) (n : nat) (d : Z) :
  (∀ i, 0 ≤ i < Z.of_nat n → is_Some (m !! (d - i))) → (n ≤ size m)%nat.
Proof.
  revert m d. induction n as [|n IH]; intros m d Hrun; [lia|].
  destruct (Hrun 0 ltac:(lia)) as [x Hx]. rewrite Z.sub_0_r in Hx.
  rewrite <- (insert_delete_id m d x) by done.
  rewrite map_size_insert_None by apply lookup_delete_eq.
  apply le_n_S, (IH _ (d - 1)). intros i Hi.
  rewrite lookup_delete_ne by lia.
  replace (d - 1 - i) with (d - (i + 1)) by lia. apply Hrun. lia.
Qed.

Lemma in_index_and_met_is_Some (d : Z) :
  in_index_and_met met d = true → is_Some (met !! d).
Proof. unfold in_index_and_met. destruct (met !! d); [eauto|done]. Qed.

(** What the loop has done when it stops after [k] iterations: it
    counted [k] days, all met, and moved [k] days back; and it
    stopped on its condition unless the fuel ran out. *)
Lemma while_met_spec (fuel : nat) (streak d : Z) :
  ∃ k : Z,
    0 ≤ k ≤ Z.of_nat fuel ∧
    while_met met fuel streak d = (streak + k, d - k) ∧
    (∀ i, 0 ≤ i < k → in_index_and_met met (d - i) = true) ∧
    (k < Z.of_nat fuel → in_index_and_met met (d - k) = false).
Proof.
  revert streak d. induction fuel as [|fuel IH]; intros streak d.
  - exists 0. simpl. repeat split; try lia. by rewrite !Z.add_0_r, Z.sub_0_r.
  - simpl. destruct (in_index_and_met met d) eqn:Hd.
    + destruct (IH (streak + 1) (d - 1)) as (k & Hk & Hrun & Hmet & Hstop).
      exists (k + 1). split; [lia|]. split; [|split].
      * rewrite Hrun. f_equal; lia.
      * intros i Hi. destruct (decide (i = 0)) as [->|Hne].
        { by rewrite Z.sub_0_r. }
        replace (d - i) with (d - 1 - (i - 1)) by lia. apply Hmet. lia.
      * intros Hlt. replace (d - (k + 1)) with (d - 1 - k) by lia.
        apply Hstop. lia.
    + exists 0. split; [lia|]. split; [|split].
      * f_equal; lia.
      * intros i Hi. lia.
      * intros _. by rewrite Z.sub_0_r.
Qed.

(** With more fuel than the index has dates the loop stops on its
    condition: the result is that of the Python loop. *)
Lemma while_met_exit (streak d : Z) :
  ∃ k : Z,
    0 ≤ k ∧
    while_met met (S (size met)) streak d = (streak + k, d - k) ∧
    (∀ i, 0 ≤ i < k → in_index_and_met met (d - i) = true) ∧
    in_index_and_met met (d - k) = false.
Proof.
  destruct (while_met_spec (S (size met)) streak d) as (k & Hk & Hrun & Hmet & Hstop).
  exists k. split; [lia|]. split; [done|]. split; [done|].
  apply Hstop.
  assert (Z.to_nat k ≤ size met)%nat; [|lia].
  apply (consecutive_dates_bound met _ d). intros i Hi.
  apply in_index_and_met_is_Some, Hmet. lia.
Qed.

End while_met.

(** ** The streak *)

Section streak.
Context `{!Reductions}.

(** The grouped sums of the code are the float totals of the dates. *)
Lemma groupby_sum_lookup (df : DataFrame) (d : date) :
  groupby_sum df !! d = float_total df d.
Proof.
  unfold groupby_sum, float_total. rewrite lookup_fmap, groupby_lookup.
  by destruct (entries_on d df).
Qed.

Lemma in_index_and_met_met_day (tgt : Q) (df : DataFrame) (d : date) :
  in_index_and_met ((λ x, float_ge x tgt) <$> groupby_sum df) d = met_day tgt df d.
Proof.
  unfold in_index_and_met, met_day.
  rewrite lookup_fmap, groupby_sum_lookup. by destruct (float_total df d).
Qed.

Lemma update_streak_not_met_today (self : Habit) (today : Z) (logs : DataFrame) :
  met_day (target self) logs today = false →
  ∃ k : Z,
    get_streak (_update_streak self today logs) = k ∧
    0 ≤ k ∧
    (∀ i, 1 ≤ i ≤ k → met_day (target self) logs (today - i) = true) ∧
    met_day (target self) logs (today - (k + 1)) = false.
Proof.
  intros Htoday. unfold get_streak, _update_streak.
  destruct logs as [|row logs]; simpl empty; cbv iota.
  - exists 0. simpl. split; [done|]. split; [done|]. split; [intros; lia|done].
  - set (df := row :: logs) in *.
    set (met := (λ x, float_ge x (target self)) <$> groupby_sum df).
    cbv zeta.
    destruct (while_met_exit met 0 today) as (k0 & Hk0 & Hrun0 & Hmet0 & _).
    assert (k0 = 0) as ->.
    { destruct (decide (k0 = 0)) as [|Hne]; [done|].
      specialize (Hmet0 0 ltac:(lia)). rewrite Z.sub_0_r in Hmet0.
      unfold met in Hmet0. rewrite in_index_and_met_met_day in Hmet0. congruence. }
    rewrite Hrun0. cbn [fst]. change (0 + 0) with 0. change (0 =? 0) with true.
    cbv iota.
    destruct (while_met_exit met 0 (today - 1)) as (k & Hk & Hrun & Hmet & Hstop).
    rewrite Hrun. cbn [fst]. rewrite Z.add_0_l. exists k.
    split; [done|]. split; [done|]. split.
    + intros i Hi. rewrite <- in_index_and_met_met_day. fold met.
      replace (today - i) with (today - 1 - (i - 1)) by lia. apply Hmet. lia.
    + rewrite <- in_index_and_met_met_day. fold met.
      replace (today - (k + 1)) with (today - 1 - k) by lia. done.
Qed.

(** C1. For every float arithmetic of pandas: when today is not met
    (the float total of today's entries is below the target, or today
    has no entry), the streak that [_update_streak] stores and
    [get_streak] returns is the number of consecutive met days walking
    back from yesterday: the days D-1 .. D-streak are all met and the
    day before them is not.  In particular, when D-1, D-2 and D-3 are
    met and D-4 is not (or is absent), the streak is exactly 3. *)
Theorem streak_carries_over_unmet_today (self : Habit) (today : Z) (logs : DataFrame) :
  met_day (target self) logs today = false →
  let streak := get_streak (_update_streak self today logs) in
  (0 ≤ streak ∧
   (∀ i, 1 ≤ i ≤ streak → met_day (target self) logs (today - i) = true) ∧
   met_day (target self) logs (today - (streak + 1)) = false) ∧
  (met_day (target self) logs (today - 1) = true →
   met_day (target self) logs (today - 2) = true →
   met_day (target self) logs (today - 3) = true →
   met_day (target self) logs (today - 4) = false →
   streak = 3).
Proof.
  intros Htoday streak.
  destruct (update_streak_not_met_today self today logs Htoday)
    as (k & Hk & Hpos & Hmet & Hstop).
  fold streak in Hk. rewrite Hk. split; [done|].
  intros H1 H2 H3 H4.
  destruct (decide (k = 3)) as [|Hne]; [done|exfalso].
  destruct (decide (k < 3)) as [Hlt|Hge].
  - assert (k = 0 ∨ k = 1 ∨ k = 2) as [-> | [-> | ->]] by lia.
    + change (0 + 1) with 1 in Hstop. congruence.
    + change (1 + 1) with 2 in Hstop. congruence.
    + change (2 + 1) with 3 in Hstop. congruence.
  - specialize (Hmet 4 ltac:(lia)). congruence.
Qed.

End streak.

(** Nothing logged today, three met days before it (the second by two
    entries that add up), then a day without entry. *)
Lemma streak_carries_over_unmet_today_witness :
  get_streak (_update_streak (new_habit StudyHabit "Reading" 60%Q) 739000
                [(738999, 60%Q); (738998, 25%Q); (738998, 40%Q);
                 (738997, 90%Q); (738995, 60%Q)]) = 3.
Proof.
  apply (streak_carries_over_unmet_today
           (new_habit StudyHabit "Reading" 60%Q) 739000
           [(738999, 60%Q); (738998, 25%Q); (738998, 40%Q);
            (738997, 90%Q); (738995, 60%Q)]); reflexivity.
Defined.

(** The same on totals that are rounded: the target is the double
    0.4, nothing is logged today, the entries 0.1 and 0.3 of yesterday
    add up to the double 0.4, and the two days before have 0.4 each;
    the streak is 3.  (The doubles 0.1 and 0.3 as numbers add up to
    less than the double 0.4: [day_met], in exact arithmetic, is not
    what the code computes.) *)
Example streak_over_rounded_totals :
  let dbl := Binary64.double in
  let self := new_habit StudyHabit "Reading" (dbl (4 # 10)) in
  let logs := [(738999, dbl (1 # 10)); (738999, dbl (3 # 10));
               (738998, dbl (4 # 10)); (738997, dbl (4 # 10))] in
  get_streak (_update_streak self 739000 logs) = 3 ∧
  met_day (target self) logs 738999 = true ∧
  day_met (target self) logs 738999 = false.
Proof. by vm_compute. Qed.

(** And with a total that rounds up to the target: entries 2^53+2 and
    1 today against a target of 2^53+4. *)
Example streak_total_rounds_up_to_target :
  let self := new_habit ExerciseHabit "Run" (inject_Z (2 ^ 53 + 4)) in
  let logs := [(739000, inject_Z (2 ^ 53 + 2)); (739000, 1%Q)] in
  get_streak (_update_streak self 739000 logs) = 1.
Proof. by vm_compute. Qed.

(** ** The recommendations, against the metrics of the specification *)

(** C2. One log entry, made today, that meets the target of 60: the
    code divides by the one day that has entries, reports a consistency
    of 1 and selects the spaced-repetition message; over the seven
    calendar days of the window the fraction is 1/7, below 0.6, for
    which the focus-block message is specified. *)
Theorem study_consistency_ignores_days_without_entry :
  let self := new_habit StudyHabit "Reading" 60%Q in
  let today := 739000 in
  let logs := [(739000, 60%Q)] in
  study_consistency self today logs = 1%Q ∧
  tip (recommendation self today logs) = SPACED ∧
  fraction_of_window_days_met (target self) today logs = (1 # 7)%Q ∧
  Qlt_bool (fraction_of_window_days_met (target self) today logs) (6 # 10) = true ∧
  POMODORO ≠ SPACED.
Proof. vm_compute. repeat split; discriminate. Qed.

(** C3. Two entries on the same day, 10 and 25 minutes, target 30: the
    code averages the two rows (17.5) and selects the incremental
    increase; the mean of the daily totals is 35, at least the target,
    for which the rest-day message is specified. *)
Theorem exercise_mean_is_over_rows_not_days :
  let self := new_habit ExerciseHabit "Run" 30%Q in
  let today := 739000 in
  let logs := [(739000, 10%Q); (739000, 25%Q)] in
  shown (recommendation self today logs) = Some (num (35 # 2)) ∧
  tip (recommendation self today logs) = INCREMENT ∧
  mean_of_daily_totals today logs = 35%Q ∧
  Qge_bool (mean_of_daily_totals today logs) (target self) = true ∧
  REST_DAY ≠ INCREMENT.
Proof. vm_compute. repeat split; discriminate. Qed.

(** C4. A single entry in the window: exactly one day has entries, for
    which the no-data message is specified; the code takes the
    deviation of one value, which is [nan], compares it with 0.75 and
    selects the screen-off message. *)
Theorem sleep_single_entry_is_not_no_data :
  let self := new_habit SleepHabit "Sleep" 8%Q in
  let today := 739000 in
  let logs := [(739000, 7%Q)] in
  days_with_entries today logs = 1%nat ∧
  shown (recommendation self today logs) = Some nan ∧
  tip (recommendation self today logs) = SCREEN_OFF ∧
  NO_DATA ≠ SCREEN_OFF.
Proof. vm_compute. repeat split; discriminate. Qed.

(** * Properties of the repositories *)

(** ** The stable sort *)

Section sort_by.
Context {A : Type} (key : A → Z).

Lemma insert_by_Permutation (x : A) (l : list A) : insert_by key x l ≡ₚ x :: l.
Proof.
  induction l as [|y l IH]; simpl; [done|].
  destruct (decide (key x ≤ key y)); [done|].
  by rewrite IH, Permutation_swap.
Qed.

Lemma sort_by_Permutation (l : list A) : sort_by key l ≡ₚ l.
Proof.
  induction l as [|x l IH]; [done|].
  unfold sort_by in *. simpl. by rewrite insert_by_Permutation, IH.
Qed.

Lemma insert_by_Sorted (x : A) (l : list A) :
  Sorted (λ a b, key a ≤ key b) l → Sorted (λ a b, key a ≤ key b) (insert_by key x l).
Proof.
  induction l as [|y l IH]; intros Hs; simpl.
  - by repeat constructor.
  - destruct (decide (key x ≤ key y)) as [Hle|Hgt].
    + constructor; [done|by constructor].
    + apply Sorted_inv in Hs as [Hs Hhd]. constructor; [by apply IH|].
      destruct l as [|z l]; simpl.
      * constructor. lia.
      * apply HdRel_inv in Hhd.
        destruct (decide (key x ≤ key z)); constructor; lia.
Qed.

Lemma sort_by_Sorted (l : list A) : Sorted (λ a b, key a ≤ key b) (sort_by key l).
Proof.
  induction l as [|x l IH]; [constructor|].
  unfold sort_by in *. simpl. by apply insert_by_Sorted.
Qed.

(** The sort is stable: the elements of one key keep their order. *)
Lemma insert_by_filter (x : A) (l : list A) (k : Z) :
  filter (λ a, key a = k) (insert_by key x l) = filter (λ a, key a = k) (x :: l).
Proof.
  induction l as [|y l IH]; simpl; [done|].
  destruct (decide (key x ≤ key y)) as [Hle|Hgt]; [done|].
  rewrite (filter_cons _ y), IH, !(filter_cons _ x), !(filter_cons _ y).
  destruct (decide (key y = k)), (decide (key x = k)); try done. lia.
Qed.

Lemma sort_by_filter (l : list A) (k : Z) :
  filter (λ a, key a = k) (sort_by key l) = filter (λ a, key a = k) l.
Proof.
  induction l as [|x l IH]; [done|].
  unfold sort_by in *. simpl. rewrite insert_by_filter, !filter_cons.
  by rewrite IH.
Qed.

End sort_by.

Module SQLiteFacts.
Import SQLiteRepo.

Lemma le_foldr_max (ids : list Z) (x : Z) : x ∈ ids → x ≤ foldr Z.max 0 ids.
Proof.
  induction ids as [|y ids IH]; [by intros ?%elem_of_nil|].
  intros [->|Hin]%elem_of_cons; simpl; [lia|]. specialize (IH Hin). lia.
Qed.

(** An AUTOINCREMENT rowid is larger than every rowid of the table. *)
Lemma next_rowid_fresh (ids : list Z) (seq : Z) : next_rowid ids seq ∉ ids.
Proof. intros Hin%le_foldr_max. unfold next_rowid in Hin. lia. Qed.

Lemma habit_record_None (db : t) (hid : Z) :
  habit_record db hid = None ↔ hid ∉ row_id <$> habits db.
Proof.
  unfold habit_record. induction (habits db) as [|r rows IH]; simpl.
  - split; [intros _; apply not_elem_of_nil|done].
  - rewrite filter_cons. rewrite not_elem_of_cons.
    destruct (decide (row_id r = hid)) as [Heq|Hne]; simpl.
    + split; [done|]. intros [? _]. congruence.
    + rewrite IH. split; [intros ?; split; [congruence|done]|tauto].
Qed.

Lemma filter_none_id {A} (P : A → Prop) `{!∀ x, Decision (P x)} (l : list A) :
  (∀ x, x ∈ l → P x) → filter P l = l.
Proof.
  induction l as [|x l IH]; intros Hall; [done|].
  rewrite filter_cons_True by (apply Hall; left).
  f_equal. apply IH. intros y Hy. apply Hall. by right.
Qed.

Lemma filter_all_nil {A} (P : A → Prop) `{!∀ x, Decision (P x)} (l : list A) :
  (∀ x, x ∈ l → ¬ P x) → filter P l = [].
Proof.
  induction l as [|x l IH]; intros Hall; [done|].
  rewrite filter_cons_False by (apply Hall; left).
  apply IH. intros y Hy. apply Hall. by right.
Qed.

(** The rows [get_logs] returns are those of the habit, each once. *)
Lemma get_logs_Permutation (db : t) (hid : Z) :
  get_logs db hid ≡ₚ
  (λ r, (log_date r, log_amount r)) <$> filter (λ r, habit_id r = hid) (logs db).
Proof.
  unfold get_logs, select_logs. apply fmap_Permutation, sort_by_Permutation.
Qed.

(** and they come in ascending order of date. *)
Lemma get_logs_Sorted (db : t) (hid : Z) :
  Sorted (λ row1 row2 : Z * Q, row1.1 ≤ row2.1) (get_logs db hid).
Proof.
  unfold get_logs, select_logs.
  pose proof (sort_by_Sorted log_date
                (filter (λ r, habit_id r = hid) (logs db))) as Hs.
  induction Hs as [|r rows Hs IH Hhd]; simpl; constructor; [done|].
  destruct Hhd; simpl; constructor. done.
Qed.

Lemma get_logs_nil (db : t) (hid : Z) :
  get_logs db hid = [] ↔ hid ∉ habit_id <$> logs db.
Proof.
  split.
  - intros Hnil Hin. apply list_elem_of_fmap in Hin as (r & -> & Hr).
    pose proof (get_logs_Permutation db (habit_id r)) as Hp.
    rewrite Hnil in Hp. symmetry in Hp. apply Permutation_nil_r in Hp.
    apply fmap_nil_inv in Hp.
    exact (filter_nil_not_elem_of _ _ r Hp eq_refl Hr).
  - intros Hnot. unfold get_logs, select_logs.
    rewrite filter_all_nil; [done|].
    intros r Hr Heq. apply Hnot, list_elem_of_fmap. eauto.
Qed.

Lemma entries_on_date_amount (d : date) (rows : list logs_row) :
  entries_on d (date_amount <$> rows) =
  date_amount <$> filter (λ r, log_date r = d) rows.
Proof.
  unfold entries_on. induction rows as [|r rows IH]; [done|].
  rewrite fmap_cons, !filter_cons, IH. simpl.
  by destruct (decide (log_date r = d)).
Qed.

(** The entries of one date come in the order of insertion: date by
    date, [get_logs] returns what the table holds. *)
Lemma get_logs_entries_on (db : t) (hid : Z) (d : date) :
  entries_on d (get_logs db hid) = entries_on d (logged_rows db hid).
Proof.
  unfold get_logs, select_logs, logged_rows.
  by rewrite !entries_on_date_amount, sort_by_filter.
Qed.

End SQLiteFacts.

Module MemoryFacts.
Import MemoryRepo.

(** Every id in use is below the next id to hand out. *)
Lemma ids_below_next (self : t) (hid : Z) :
  reachable self → is_Some (_habits self !! hid) → hid < _next_id self.
Proof.
  intros Hr. revert hid.
  induction Hr as [|self name h_type tgt _ IH|self hid' _ IH|self hid' d amount _ IH];
    intros hid; simpl.
  - rewrite lookup_empty. by intros [? ?].
  - destruct (decide (_next_id self = hid)) as [<-|Hne]; [lia|].
    rewrite lookup_insert_ne by done. intros H%IH. lia.
  - destruct (decide (hid' = hid)) as [->|Hne].
    + rewrite lookup_delete_eq. by intros [? ?].
    + rewrite lookup_delete_ne by done. apply IH.
  - apply IH.
Qed.

(** A log list kept under an id without habit is never empty: only
    [add_log] makes such a list, by appending to it. *)
Lemma orphan_logs_nonempty (self : t) (hid : Z) :
  reachable self → _habits self !! hid = None → _logs self !! hid ≠ Some [].
Proof.
  intros Hr. revert hid.
  induction Hr as [|self name h_type tgt _ IH|self hid' _ IH|self hid' d amount _ IH];
    intros hid; simpl.
  - by rewrite lookup_empty.
  - destruct (decide (_next_id self = hid)) as [<-|Hne].
    + by rewrite lookup_insert_eq.
    + rewrite !lookup_insert_ne by done. apply IH.
  - destruct (decide (hid' = hid)) as [->|Hne].
    + by rewrite !lookup_delete_eq.
    + rewrite !lookup_delete_ne by done. apply IH.
  - intros Hnone. destruct (decide (hid' = hid)) as [->|Hne].
    + rewrite lookup_insert_eq. intros [= Happ]. by destruct (default _ _).
    + rewrite lookup_insert_ne by done. by apply IH.
Qed.

Lemma get_logs_rows (self : t) (hid : Z) :
  get_logs self hid = default [] (_logs self !! hid).
Proof. unfold get_logs. by destruct (default _ _). Qed.

End MemoryFacts.

(** ** [add_log] with the id of no habit *)

(** C5, as stated, fails: on a new [MemoryRepo], which has no habit 5,
    [add_log(5, ..)] raises nothing and stores the entry. *)
Lemma memory_add_log_accepts_unknown_habit :
  habit_record MemoryRepo.init 5 = None ∧
  (∃ self', add_log MemoryRepo.init 5 739000 30%Q = Returned () self' ∧
            get_logs MemoryRepo.init 5 = [] ∧
            get_logs self' 5 = [(739000, 30%Q)]) ∧
  ¬ add_log_rejects_unknown_habit MemoryRepo.t.
Proof.
  split; [done|]. split; [by eexists|].
  intros Hclaim. destruct (Hclaim MemoryRepo.init 5 739000 30%Q) as [e He]; done.
Qed.

(** C5, amended.  [MemoryRepo.add_log] never raises, whether or not
    the id identifies a habit: it leaves the habit records as they are
    and appends the entry to the list kept under the id (a new list
    when there was none), so that [get_logs] of the id returns the
    earlier entries followed by the new one, and [get_logs] of every
    other id is unchanged. *)
Theorem memory_add_log_appends_for_any_id
    (self : MemoryRepo.t) (hid : Z) (d : date) (amount : Q) :
  ∃ self',
    add_log self hid d amount = Returned () self' ∧
    (∀ k, habit_record self' k = habit_record self k) ∧
    get_logs self' hid = get_logs self hid ++ [(d, amount)] ∧
    (∀ k, k ≠ hid → get_logs self' k = get_logs self k).
Proof.
  eexists. split; [reflexivity|]. split; [done|].
  simpl. rewrite !MemoryFacts.get_logs_rows. simpl. split.
  - by rewrite lookup_insert_eq.
  - intros k Hk. rewrite !MemoryFacts.get_logs_rows. simpl.
    by rewrite lookup_insert_ne.
Qed.

(** The connections of [SQLiteRepo] do not enforce the foreign key of
    [logs], so its [add_log] stores the row as well. *)
Lemma sqlite_add_log_stores_row (db : SQLiteRepo.t) (hid : Z) (d : date) (amount : Q) :
  ∃ db',
    add_log db hid d amount = Returned () db' ∧
    SQLiteRepo.habits db' = SQLiteRepo.habits db ∧
    get_logs db' hid ≡ₚ get_logs db hid ++ [(d, amount)].
Proof.
  eexists. split; [reflexivity|]. split; [done|]. simpl.
  rewrite !SQLiteFacts.get_logs_Permutation. simpl.
  rewrite filter_app, fmap_app.
  by rewrite (filter_cons_True _ _ []).
Qed.

(** ** [add_habit]: no validation, fresh ids *)




(** ** [get_logs]: order of the result *)

(** X26. [SQLiteRepo.get_logs] returns exactly the entries of the
    habit, each once, in ascending order of date. *)
Lemma sqlite_get_logs_sorted (db : SQLiteRepo.t) (hid : Z) :
  Sorted (λ row1 row2 : Z * Q, row1.1 ≤ row2.1) (get_logs db hid) ∧
  get_logs db hid ≡ₚ
    (λ r, (SQLiteRepo.log_date r, SQLiteRepo.log_amount r)) <$>
      filter (λ r, SQLiteRepo.habit_id r = hid) (SQLiteRepo.logs db).
Proof.
  split; [apply SQLiteFacts.get_logs_Sorted|apply SQLiteFacts.get_logs_Permutation].
Qed.

(** C7. After these calls [MemoryRepo.get_logs] returns the entries in
    the order of the calls, the later date first, which is not
    ascending by date; [SQLiteRepo.get_logs] returns them by date.  The
    two repositories are told apart by [get_logs]. *)
Theorem memory_get_logs_keeps_insertion_order :
  get_logs (logged_out_of_order MemoryRepo.init) 1 = [(739001, 45%Q); (739000, 60%Q)] ∧
  get_logs (logged_out_of_order SQLiteRepo.init) 1 = [(739000, 60%Q); (739001, 45%Q)] ∧
  ¬ Sorted (λ row1 row2 : Z * Q, row1.1 ≤ row2.1)
      (get_logs (logged_out_of_order MemoryRepo.init) 1).
Proof.
  split; [done|]. split; [by vm_compute|].
  intros Hs. apply Sorted_inv in Hs as [_ Hhd].
  apply HdRel_inv in Hhd. simpl in Hhd. lia.
Qed.

(** ** [delete_habit] *)

(** C8, as stated, fails: with a log entry stored under an id that
    identifies no habit, [delete_habit] of that id removes the entry,
    so the store does change; on both repositories. *)
Lemma delete_unknown_habit_removes_orphan_logs :
  (habit_record (orphan_logged MemoryRepo.init) 5 = None ∧
   get_logs (orphan_logged MemoryRepo.init) 5 = [(739000, 30%Q)] ∧
   get_logs (store_of (delete_habit (orphan_logged MemoryRepo.init) 5)) 5 = []) ∧
  (habit_record (orphan_logged SQLiteRepo.init) 5 = None ∧
   get_logs (orphan_logged SQLiteRepo.init) 5 = [(739000, 30%Q)] ∧
   get_logs (store_of (delete_habit (orphan_logged SQLiteRepo.init) 5)) 5 = []) ∧
  ¬ delete_unknown_changes_nothing MemoryRepo.t ∧
  ¬ delete_unknown_changes_nothing SQLiteRepo.t.
Proof.
  split; [by vm_compute|]. split; [by vm_compute|]. split.
  - intros Hclaim.
    specialize (Hclaim (orphan_logged MemoryRepo.init) 5 eq_refl).
    apply (f_equal (λ o, get_logs (store_of o) 5)) in Hclaim. by vm_compute in Hclaim.
  - intros Hclaim.
    specialize (Hclaim (orphan_logged SQLiteRepo.init) 5 eq_refl).
    apply (f_equal (λ o, get_logs (store_of o) 5)) in Hclaim. by vm_compute in Hclaim.
Qed.

Lemma sqlite_delete_habit_returns (db : SQLiteRepo.t) (hid : Z) :
  delete_habit db hid =
  Returned () (SQLiteRepo.mkDb
                 (filter (λ r, row_id r ≠ hid) (SQLiteRepo.habits db))
                 (filter (λ r, SQLiteRepo.habit_id r ≠ hid) (SQLiteRepo.logs db))
                 (SQLiteRepo.seq_habits db) (SQLiteRepo.seq_logs db)).
Proof. reflexivity. Qed.

Lemma not_elem_of_fmap_filter_ne {A} (f : A → Z) (l : list A) (x : Z) :
  x ∉ f <$> filter (λ a, f a ≠ x) l.
Proof.
  intros (a & -> & Ha)%list_elem_of_fmap.
  apply list_elem_of_filter in Ha as [Hne _]. done.
Qed.

Lemma filter_ne_absent {A} (f : A → Z) (l : list A) (x : Z) :
  x ∉ f <$> l → filter (λ a, f a ≠ x) l = l.
Proof.
  intros Hnot. apply SQLiteFacts.filter_none_id.
  intros a Ha Heq. apply Hnot, list_elem_of_fmap. eauto.
Qed.

(** C8, amended.  On both repositories [delete_habit] raises nothing
    (on [SQLiteRepo], for an id within the 64-bit integers SQLite
    binds), and afterwards no habit has the id and [get_logs] of the
    id is empty, whatever was logged for it before.  When the id
    identified no habit, every habit record is as before, and when
    moreover no log entry was stored under the id ([get_logs] of it
    was empty) the store as a whole is as before (for a [MemoryRepo],
    in the states an object can reach). *)
Theorem delete_habit_cascades_and_tolerates_unknown (hid : Z) :
  (sqlite_integer hid →
   ∀ db : SQLiteRepo.t,
     ∃ db',
       delete_habit db hid = Returned () db' ∧
       habit_record db' hid = None ∧
       get_logs db' hid = [] ∧
       (habit_record db hid = None →
        (∀ k, habit_record db' k = habit_record db k) ∧
        (get_logs db hid = [] → db' = db))) ∧
  (∀ self : MemoryRepo.t,
     ∃ self',
       delete_habit self hid = Returned () self' ∧
       habit_record self' hid = None ∧
       get_logs self' hid = [] ∧
       (habit_record self hid = None →
        (∀ k, habit_record self' k = habit_record self k) ∧
        (reachable self → get_logs self hid = [] → self' = self))).
Proof.
  split.
  - intros _ db. eexists. split; [apply sqlite_delete_habit_returns|].
    split; [|split].
    + apply SQLiteFacts.habit_record_None. simpl. apply not_elem_of_fmap_filter_ne.
    + apply SQLiteFacts.get_logs_nil. simpl. apply not_elem_of_fmap_filter_ne.
    + intros Hnone%SQLiteFacts.habit_record_None.
      pose proof (filter_ne_absent row_id _ _ Hnone) as Hhabits. split.
      * intros k. simpl. unfold SQLiteRepo.habit_record. simpl. by rewrite Hhabits.
      * intros Hlogs%SQLiteFacts.get_logs_nil.
        rewrite Hhabits, (filter_ne_absent SQLiteRepo.habit_id _ _ Hlogs).
        by destruct db.
  - intros self. eexists. split; [reflexivity|]. split; [|split].
    + simpl. unfold MemoryRepo.habit_record. simpl. apply lookup_delete_eq.
    + simpl. rewrite MemoryFacts.get_logs_rows. simpl. by rewrite lookup_delete_eq.
    + simpl. unfold MemoryRepo.habit_record. intros Hnone. split.
      * intros k. simpl. by rewrite delete_id.
      * intros Hr Hlogs. rewrite MemoryFacts.get_logs_rows in Hlogs.
        pose proof (MemoryFacts.orphan_logs_nonempty self hid Hr Hnone) as Horphan.
        destruct (MemoryRepo._logs self !! hid) as [rows|] eqn:E.
        { simpl in Hlogs. congruence. }
        rewrite !delete_id by done. by destruct self.
Qed.

(** On the database with two habits and one log entry each: deleting
    habit 1 leaves no habit 1 and no log entry of it, and deleting the
    unknown id 7 leaves the database as it is. *)
Lemma delete_habit_cascades_and_tolerates_unknown_witness :
  let db := two_habits_logged SQLiteRepo.init in
  (sqlite_integer 1 ∧
   habit_record db 1 = Some (mkHabitRow 1 "Morning Run" "Exercise (minutes)" 30%Q) ∧
   get_logs db 1 = [(739000, 35%Q)] ∧
   ∃ db', delete_habit db 1 = Returned () db' ∧
          habit_record db' 1 = None ∧
          get_logs db' 1 = []) ∧
  (sqlite_integer 7 ∧
   habit_record db 7 = None ∧
   get_logs db 7 = [] ∧
   delete_habit db 7 = Returned () db).
Proof.
  intros db.
  assert (sqlite_integer 1) as H1 by (unfold sqlite_integer; lia).
  assert (sqlite_integer 7) as H7 by (unfold sqlite_integer; lia).
  split.
  - split; [exact H1|]. split; [reflexivity|]. split; [reflexivity|].
    destruct (proj1 (delete_habit_cascades_and_tolerates_unknown 1) H1 db)
      as (db' & Hcall & Hrecord & Hlogs & _).
    exists db'. by repeat split.
  - split; [exact H7|]. split; [reflexivity|]. split; [reflexivity|].
    destruct (proj1 (delete_habit_cascades_and_tolerates_unknown 7) H7 db)
      as (db' & Hcall & _ & _ & Hsame).
    destruct (Hsame eq_refl) as [_ Hstore].
    rewrite Hcall. f_equal. by apply Hstore.
Defined.

(** C9. In every state of a [MemoryRepo], [add_habit] returns the id
    [_next_id] and [get_logs] of that id is empty right after the call,
    also when a log list was kept under that id before (entries added
    by [add_log] while no habit had the id): [add_habit] replaces it by
    the empty list. *)
Theorem memory_add_habit_resets_logs
    (self : MemoryRepo.t) (name h_type : string) (tgt : Q) :
  ∃ self',
    add_habit self name h_type tgt = Returned (MemoryRepo._next_id self) self' ∧
    get_logs self' (MemoryRepo._next_id self) = [].
Proof.
  eexists. split; [reflexivity|].
  simpl. rewrite MemoryFacts.get_logs_rows. simpl. by rewrite lookup_insert_eq.
Qed.

(** An instance with such an earlier list: a log entry for id 1 on a
    new repository, then the first habit, which gets id 1. *)
Example memory_add_habit_drops_orphan_logs :
  let self := store_of (add_log MemoryRepo.init 1 739000 30%Q) in
  get_logs self 1 = [(739000, 30%Q)] ∧
  ∃ self', add_habit self "Run" "Exercise (minutes)" 30%Q = Returned 1 self' ∧
           get_logs self' 1 = [].
Proof. split; [done|]. eexists. split; [reflexivity|]. by vm_compute. Qed.

(** C10. On both repositories, deleting the habit [id1] leaves the
    habit record of every other id [id2] and the result of [get_logs]
    for [id2] as they were. *)
Theorem delete_habit_frames_other_habits (id1 id2 : Z) :
  id1 ≠ id2 →
  (∀ db : SQLiteRepo.t,
     ∃ db',
       delete_habit db id1 = Returned () db' ∧
       habit_record db' id2 = habit_record db id2 ∧
       get_logs db' id2 = get_logs db id2) ∧
  (∀ self : MemoryRepo.t,
     ∃ self',
       delete_habit self id1 = Returned () self' ∧
       habit_record self' id2 = habit_record self id2 ∧
       get_logs self' id2 = get_logs self id2).
Proof.
  intros Hne. split.
  - intros db. eexists. split; [apply sqlite_delete_habit_returns|].
    simpl. unfold SQLiteRepo.habit_record, SQLiteRepo.get_logs, SQLiteRepo.select_logs.
    simpl. by rewrite !list_filter_filter_l by (intros; congruence).
  - intros self. eexists. split; [reflexivity|].
    simpl. unfold MemoryRepo.habit_record. rewrite !MemoryFacts.get_logs_rows.
    simpl. by rewrite !lookup_delete_ne.
Qed.

Lemma delete_habit_frames_other_habits_witness :
  ∃ db',
    delete_habit (two_habits_logged SQLiteRepo.init) 1 = Returned () db' ∧
    habit_record db' 2 = habit_record (two_habits_logged SQLiteRepo.init) 2 ∧
    get_logs db' 2 = get_logs (two_habits_logged SQLiteRepo.init) 2.
Proof.
  apply (proj1 (delete_habit_frames_other_habits 1 2 ltac:(discriminate))).
Defined.

(** * Further properties of the analysers *)

(** ** The streak *)

Lemma size_groupby (df : DataFrame) : (size (groupby df) ≤ length df)%nat.
Proof.
  induction df as [|row df IH] using rev_ind; [done|].
  rewrite groupby_snoc, map_size_insert, length_app. simpl.
  destruct (groupby df !! row.1); simpl; lia.
Qed.

(** Two runs that end on the same day, over days that are met alike up
    to that day, have the same length. *)
Lemma met_run_agree (met1 met2 : date → bool) (d k1 k2 : Z) :
  (∀ d', d' ≤ d → met1 d' = met2 d') →
  met_run met1 d k1 → met_run met2 d k2 → k1 = k2.
Proof.
  intros Hagree (Hk1 & Hmet1 & Hstop1) (Hk2 & Hmet2 & Hstop2).
  destruct (Z.lt_trichotomy k1 k2) as [Hlt|[Heq|Hgt]]; [exfalso|done|exfalso].
  - specialize (Hmet2 k1 ltac:(lia)). rewrite <- Hagree in Hmet2 by lia. congruence.
  - specialize (Hmet1 k2 ltac:(lia)). rewrite Hagree in Hmet1 by lia. congruence.
Qed.

Section streak_facts.
Context `{!Reductions}.

Lemma update_streak_met_today (self : Habit) (today : Z) (logs : DataFrame) :
  met_day (target self) logs today = true →
  1 ≤ get_streak (_update_streak self today logs) ∧
  met_run (met_day (target self) logs) today (get_streak (_update_streak self today logs)).
Proof.
  intros Htoday. unfold get_streak, _update_streak.
  destruct logs as [|row logs]; [done|]. simpl empty. cbv iota.
  set (df := row :: logs) in *.
  set (met := (λ x, float_ge x (target self)) <$> groupby_sum df).
  cbv zeta.
  destruct (while_met_exit met 0 today) as (k & Hk & Hrun & Hmet & Hstop).
  rewrite Hrun. cbn [fst]. rewrite Z.add_0_l.
  assert (1 ≤ k) as Hpos.
  { destruct (decide (k = 0)) as [->|]; [|lia].
    rewrite Z.sub_0_r in Hstop. unfold met in Hstop.
    rewrite in_index_and_met_met_day in Hstop. congruence. }
  destruct (k =? 0) eqn:E; [lia|]. cbn [__streak_days].
  split; [done|]. split; [lia|]. split.
  - intros i Hi. rewrite <- in_index_and_met_met_day. by apply Hmet.
  - by rewrite <- in_index_and_met_met_day.
Qed.

Lemma update_streak_unmet_run (self : Habit) (today : Z) (logs : DataFrame) :
  met_day (target self) logs today = false →
  met_run (met_day (target self) logs) (today - 1)
    (get_streak (_update_streak self today logs)).
Proof.
  intros Htoday.
  destruct (update_streak_not_met_today self today logs Htoday)
    as (k & -> & Hpos & Hmet & Hstop).
  split; [done|]. split.
  - intros i Hi. replace (today - 1 - i) with (today - (i + 1)) by lia.
    apply Hmet. lia.
  - replace (today - 1 - k) with (today - (k + 1)) by lia. done.
Qed.

(** X1. For every float arithmetic of pandas: when the float total of
    today's entries reaches the target, the streak counts from today:
    it is at least 1, the days D, D-1, .., D-(streak-1) are all met and
    the day D-streak is not (below the target, or without entry). *)
Theorem streak_counts_from_met_today (self : Habit) (today : Z) (logs : DataFrame) :
  met_day (target self) logs today = true →
  let streak := get_streak (_update_streak self today logs) in
  1 ≤ streak ∧
  (∀ i, 0 ≤ i < streak → met_day (target self) logs (today - i) = true) ∧
  met_day (target self) logs (today - streak) = false.
Proof.
  intros Htoday streak.
  destruct (update_streak_met_today self today logs Htoday) as (Hpos & _ & Hmet & Hstop).
  done.
Qed.

(** X2. For every float arithmetic of pandas: the streak is 0 exactly
    when neither today nor yesterday is met; in particular it is 0 for
    a habit without logs. *)
Theorem streak_zero_iff (self : Habit) (today : Z) (logs : DataFrame) :
  get_streak (_update_streak self today logs) = 0 ↔
  met_day (target self) logs today = false ∧
  met_day (target self) logs (today - 1) = false.
Proof.
  destruct (met_day (target self) logs today) eqn:Htoday.
  - destruct (update_streak_met_today self today logs Htoday) as [Hpos _].
    split; [lia|]. by intros [? _].
  - pose proof (update_streak_unmet_run self today logs Htoday) as (Hk & Hmet & Hstop).
    split.
    + intros Hz. rewrite Hz, Z.sub_0_r in Hstop. done.
    + intros [_ Hy].
      destruct (decide (get_streak (_update_streak self today logs) = 0)) as [|Hne];
        [done|exfalso].
      specialize (Hmet 0 ltac:(lia)). rewrite Z.sub_0_r in Hmet. congruence.
Qed.

Lemma met_day_has_total (tgt : Q) (logs : DataFrame) (d : date) :
  met_day tgt logs d = true → is_Some (groupby_sum logs !! d).
Proof.
  unfold met_day. rewrite groupby_sum_lookup.
  destruct (float_total logs d); [eauto|done].
Qed.

Lemma met_run_bound (tgt : Q) (logs : DataFrame) (d k : Z) :
  met_run (met_day tgt logs) d k → k ≤ Z.of_nat (length logs).
Proof.
  intros (Hk & Hmet & _).
  pose proof (size_groupby logs).
  assert (Z.to_nat k ≤ size (groupby_sum logs))%nat as Hsize.
  { apply (consecutive_dates_bound _ _ d). intros i Hi.
    eapply met_day_has_total, Hmet. lia. }
  unfold groupby_sum in Hsize. rewrite map_size_fmap in Hsize. lia.
Qed.

(** The streak is decided by which days up to today are met. *)
Lemma streak_determined_by_met_days (self : Habit) (today : Z) (logs1 logs2 : DataFrame) :
  (∀ d, d ≤ today → met_day (target self) logs1 d = met_day (target self) logs2 d) →
  get_streak (_update_streak self today logs1) =
  get_streak (_update_streak self today logs2).
Proof.
  intros Hagree.
  destruct (met_day (target self) logs1 today) eqn:H1;
    pose proof H1 as H2; rewrite Hagree in H2 by lia.
  - apply (met_run_agree (met_day (target self) logs1) (met_day (target self) logs2)
             today); [exact Hagree|by apply update_streak_met_today..].
  - apply (met_run_agree (met_day (target self) logs1) (met_day (target self) logs2)
             (today - 1)); [|by apply update_streak_unmet_run..].
    intros d' Hd'. apply Hagree. lia.
Qed.

Lemma streak_of_entries_per_date (self : Habit) (today : Z) (logs1 logs2 : DataFrame) :
  same_entries_per_date logs1 logs2 →
  get_streak (_update_streak self today logs1) =
  get_streak (_update_streak self today logs2).
Proof.
  intros Hsame. apply streak_determined_by_met_days. intros d _.
  unfold met_day, float_total. by rewrite (Hsame d).
Qed.

(** X3. The streak is never negative and never more than the number
    of log entries. *)
Theorem streak_bounds (self : Habit) (today : Z) (logs : DataFrame) :
  0 ≤ get_streak (_update_streak self today logs) ≤ Z.of_nat (length logs).
Proof.
  destruct (met_day (target self) logs today) eqn:Htoday.
  - destruct (update_streak_met_today self today logs Htoday) as [Hpos Hrun].
    apply met_run_bound in Hrun. lia.
  - pose proof (update_streak_unmet_run self today logs Htoday) as Hrun.
    pose proof Hrun as [Hpos _]. apply met_run_bound in Hrun. lia.
Qed.

(** X4. For every float arithmetic of pandas, the streak depends only
    on the entries of each date and their order within the date: two
    frames that hold, date by date, the same entries in the same order
    give the same streak, however the rows of different dates are
    interleaved (so the insertion order of [MemoryRepo.get_logs] and
    the date order of [SQLiteRepo.get_logs] give the same streak).
    The order of the entries within one date is kept: a float sum may
    depend on it. *)
Theorem streak_depends_on_entries_per_date
    (self : Habit) (today : Z) (logs1 logs2 : DataFrame) :
  same_entries_per_date logs1 logs2 →
  get_streak (_update_streak self today logs1) =
  get_streak (_update_streak self today logs2).
Proof. apply streak_of_entries_per_date. Qed.

(** X5. Log entries dated after today have no effect on the streak:
    dropping them from the frame leaves the streak as it is. *)
Theorem streak_ignores_later_dates (self : Habit) (today : Z) (logs : DataFrame) :
  get_streak (_update_streak self today (filter (λ row, row.1 ≤ today) logs)) =
  get_streak (_update_streak self today logs).
Proof.
  apply streak_determined_by_met_days. intros d Hd.
  unfold met_day, float_total, entries_on.
  rewrite list_filter_filter.
  rewrite (list_filter_iff _ (λ row : Z * Q, row.1 = d)); [done|].
  intros row. split; [tauto|]. intros ->. done.
Qed.


End streak_facts.

Lemma streak_counts_from_met_today_witness :
  1 ≤ get_streak (_update_streak (new_habit ExerciseHabit "Run" 30%Q) 739000
                    [(739000, 10%Q); (738999, 30%Q); (739000, 25%Q); (738997, 30%Q)]).
Proof.
  apply (streak_counts_from_met_today (new_habit ExerciseHabit "Run" 30%Q) 739000
           [(739000, 10%Q); (738999, 30%Q); (739000, 25%Q); (738997, 30%Q)]).
  reflexivity.
Defined.

(** The rows of two dates interleaved in two ways. *)
Lemma streak_depends_on_entries_per_date_witness :
  get_streak (_update_streak (new_habit StudyHabit "Reading" 60%Q) 739000
                [(739000, 60%Q); (738999, 45%Q); (738999, 30%Q)]) =
  get_streak (_update_streak (new_habit StudyHabit "Reading" 60%Q) 739000
                [(738999, 45%Q); (739000, 60%Q); (738999, 30%Q)]).
Proof.
  apply (streak_depends_on_entries_per_date
           (new_habit StudyHabit "Reading" 60%Q) 739000
           [(739000, 60%Q); (738999, 45%Q); (738999, 30%Q)]
           [(738999, 45%Q); (739000, 60%Q); (738999, 30%Q)]).
  intros d. unfold entries_on. rewrite !filter_cons, !filter_nil. simpl.
  destruct (decide (739000 = d)), (decide (738999 = d)); try reflexivity; lia.
Defined.

(** ** The recommendations *)

(** Sums of amounts, up to the equality of rationals. *)
Lemma foldl_Qplus_acc (a : Q) (xs : list Q) :
  Qeq (foldl Qplus a xs) (a + Qsum xs)%Q.
Proof.
  unfold Qsum. revert a. induction xs as [|x xs IH]; intros a; simpl.
  - ring.
  - rewrite (IH (a + x)%Q), (IH (0 + x)%Q). ring.
Qed.

Lemma Qsum_cons (x : Q) (xs : list Q) : Qeq (Qsum (x :: xs)) (x + Qsum xs)%Q.
Proof. unfold Qsum at 1. simpl. rewrite foldl_Qplus_acc. ring. Qed.

Lemma Qle_div_iff (a b c : Q) : (0 < c)%Q → Qle a (b / c) ↔ Qle (a * c) b.
Proof.
  intros Hc. split; [|by apply Qle_shift_div_l].
  intros Hle. apply (Qmult_le_compat_r _ _ c) in Hle; [|by apply Qlt_le_weak].
  assert (Qeq (b / c * c) b) as Heq; [|by rewrite Heq in Hle].
  rewrite Qmult_comm. apply Qmult_div_r. intros Hz. rewrite Hz in Hc.
  by apply Qlt_irrefl in Hc.
Qed.

Lemma groupby_is_Some (df : DataFrame) (d : date) :
  is_Some (groupby df !! d) ↔ d ∈ df.*1.
Proof.
  induction df as [|row df IH] using rev_ind.
  - unfold groupby. simpl. rewrite lookup_empty, elem_of_nil.
    split; [by intros [? ?]|done].
  - rewrite groupby_snoc, lookup_insert_is_Some', IH, fmap_app, elem_of_app.
    simpl. rewrite list_elem_of_singleton. split; intros [?|?]; auto.
Qed.

Lemma Qsum_indicator (bs : list bool) :
  Qeq (Qsum ((λ b : bool, if b then 1%Q else 0%Q) <$> bs))
      (inject_Z (Z.of_nat (length (filter (λ b, b = true) bs)))).
Proof.
  induction bs as [|b bs IH]; [reflexivity|].
  rewrite fmap_cons, Qsum_cons, IH. destruct b.
  - rewrite filter_cons_True by done. cbn [length].
    rewrite Nat2Z.inj_succ, <- Z.add_1_l, inject_Z_plus. reflexivity.
  - rewrite filter_cons_False by done. ring.
Qed.

Lemma length_filter_fmap {A} (g : A → bool) (l : list A) :
  length (filter (λ b, b = true) (g <$> l)) = length (filter (λ x, g x = true) l).
Proof.
  induction l as [|x l IH]; [done|].
  rewrite fmap_cons, !filter_cons. destruct (g x) eqn:E; simpl; by rewrite IH.
Qed.

Lemma logged_dates_cons_length (row : Z * Q) (df : DataFrame) :
  (0 < length (logged_dates (row :: df)))%nat.
Proof.
  assert (row.1 ∈ logged_dates (row :: df)) as Hin.
  { unfold logged_dates. rewrite elem_of_remove_dups. simpl. left. }
  destruct (logged_dates (row :: df)); [by apply elem_of_nil in Hin|simpl; lia].
Qed.

(** Frames with the same entries date by date are grouped alike, *)
Lemma groupby_of_entries_per_date (df1 df2 : DataFrame) :
  same_entries_per_date df1 df2 → groupby df1 = groupby df2.
Proof. intros Hsame. apply map_eq. intros d. by rewrite !groupby_lookup, (Hsame d). Qed.

(** are empty together, *)
Lemma empty_of_entries_per_date (df1 df2 : DataFrame) :
  same_entries_per_date df1 df2 → empty df1 = empty df2.
Proof.
  intros Hsame. destruct df1 as [|r1 df1], df2 as [|r2 df2]; try done; exfalso.
  - specialize (Hsame r2.1). unfold entries_on in Hsame.
    by rewrite filter_nil, filter_cons_True in Hsame.
  - specialize (Hsame r1.1). unfold entries_on in Hsame.
    by rewrite filter_nil, filter_cons_True in Hsame.
Qed.

(** and so are their windows. *)
Lemma last7_of_entries_per_date (today : Z) (df1 df2 : DataFrame) :
  same_entries_per_date df1 df2 →
  same_entries_per_date (last7_of today df1) (last7_of today df2).
Proof.
  intros Hsame d. unfold entries_on, last7_of.
  assert (∀ df : DataFrame,
            filter (λ row : Z * Q, row.1 = d) (filter (λ row, today - 6 ≤ row.1) df) =
            filter (λ row, today - 6 ≤ row.1) (entries_on d df)) as Hcomm.
  { intros df. unfold entries_on. rewrite !list_filter_filter.
    apply list_filter_iff. tauto. }
  by rewrite !Hcomm, (Hsame d).
Qed.

Lemma last7_of_idemp (today : Z) (logs : DataFrame) :
  last7_of today (last7_of today logs) = last7_of today logs.
Proof. unfold last7_of. by apply list_filter_filter_l. Qed.

Section recommendation_facts.
Context `{!Reductions}.

Lemma groupby_sum_is_Some (df : DataFrame) (d : date) :
  is_Some (groupby_sum df !! d) ↔ d ∈ df.*1.
Proof.
  unfold groupby_sum. rewrite lookup_fmap, fmap_is_Some. apply groupby_is_Some.
Qed.

(** The index of the grouped sums is the distinct dates of the frame. *)
Lemma groupby_sum_index (df : DataFrame) :
  (map_to_list (groupby_sum df)).*1 ≡ₚ logged_dates df.
Proof.
  apply NoDup_Permutation.
  - apply NoDup_fst_map_to_list.
  - apply NoDup_remove_dups.
  - intros d. unfold logged_dates.
    rewrite elem_of_remove_dups, <- (groupby_sum_is_Some df d), list_elem_of_fmap.
    split.
    + intros ([d' x] & -> & Hin%elem_of_map_to_list). eauto.
    + intros [x Hx]. exists (d, x). by rewrite elem_of_map_to_list.
Qed.

(** The met flags of the grouped window, date by date. *)
Lemma met_flags_of_groups (tgt : Q) (df : DataFrame) :
  snd <$> map_to_list ((λ x, float_ge x tgt) <$> groupby_sum df) =
  met_day tgt df <$> (map_to_list (groupby_sum df)).*1.
Proof.
  rewrite map_to_list_fmap, <- !list_fmap_compose.
  apply list_fmap_ext. intros i [d x] Hin%list_elem_of_lookup_2.
  apply elem_of_map_to_list in Hin. simpl.
  unfold met_day. by rewrite <- groupby_sum_lookup, Hin.
Qed.

Lemma bool_mean_of_groups (tgt : Q) (df : DataFrame) :
  Qeq (bool_mean ((λ x, float_ge x tgt) <$> groupby_sum df))
      (inject_Z (Z.of_nat (length (filter (λ d, met_day tgt df d = true) (logged_dates df))))
       / inject_Z (Z.of_nat (length (logged_dates df)))).
Proof.
  unfold bool_mean, mean.
  rewrite length_fmap, met_flags_of_groups, Qsum_indicator, !length_fmap, length_filter_fmap.
  assert (length (filter (λ d, met_day tgt df d = true) (map_to_list (groupby_sum df)).*1) =
          length (filter (λ d, met_day tgt df d = true) (logged_dates df))) as ->
    by (by rewrite groupby_sum_index).
  assert (length (map_to_list (groupby_sum df)) = length (logged_dates df)) as ->
    by (by rewrite <- groupby_sum_index, length_fmap).
  reflexivity.
Qed.

(** X7. [ExerciseHabit.recommendation] with no row in the window (no
    log entry dated [today - 6] or later): the number shown is 0, and
    the rest-day message is selected exactly when the target is not
    positive, the incremental increase otherwise. *)
Theorem exercise_without_recent_rows (self : Habit) (today : Z) (logs : DataFrame) :
  last7_of today logs = [] →
  shown (exercise_recommendation self today logs) = Some (num 0) ∧
  (tip (exercise_recommendation self today logs) = REST_DAY ↔ Qle (target self) 0) ∧
  (tip (exercise_recommendation self today logs) = INCREMENT ↔ ¬ Qle (target self) 0).
Proof.
  intros Hnone. unfold exercise_recommendation. rewrite Hnone. simpl empty.
  cbn [negb shown tip float_ge]. unfold Qge_bool. split; [done|].
  rewrite <- Qle_bool_iff. destruct (Qle_bool (target self) 0); split; split; done.
Qed.

(** X8. [StudyHabit.recommendation], for every float arithmetic of
    pandas: the consistency is the share of met dates (float total of
    the date at least the target) among the distinct dates that have
    an entry in the window, so a day without entry is not in the
    denominator; the spaced-repetition message is selected exactly
    when at least three fifths of those dates are met.  With no row in
    the window the consistency is 0 and the Pomodoro message is
    selected. *)
Theorem study_consistency_is_share_of_logged_dates
    (self : Habit) (today : Z) (logs : DataFrame) :
  let last7 := last7_of today logs in
  let logged := logged_dates last7 in
  let met := filter (λ d, met_day (target self) last7 d = true) logged in
  match last7 with
  | [] =>
      study_consistency self today logs = 0%Q ∧
      tip (study_recommendation self today logs) = POMODORO
  | _ :: _ =>
      Qeq (study_consistency self today logs)
          (inject_Z (Z.of_nat (length met)) / inject_Z (Z.of_nat (length logged))) ∧
      (tip (study_recommendation self today logs) = SPACED ↔
       (3 * length logged ≤ 5 * length met)%nat)
  end.
Proof.
  intros last7 logged met. unfold study_recommendation. cbn [tip].
  unfold study_consistency. fold last7.
  destruct last7 as [|row rows] eqn:E; simpl empty; cbn [negb]; [done|].
  pose proof (bool_mean_of_groups (target self) (row :: rows)) as Hc.
  fold logged in Hc. fold met in Hc. split; [exact Hc|].
  assert (∀ b : bool, (if b then POMODORO else SPACED) = SPACED ↔ b = false) as Hsel
    by (by intros []).
  rewrite Hsel. unfold Qlt_bool. rewrite negb_false_iff, Qle_bool_iff, Hc.
  pose proof (logged_dates_cons_length row rows) as Hpos. fold logged in Hpos.
  rewrite Qle_div_iff by (unfold Qlt; simpl; lia).
  unfold Qle. simpl. lia.
Qed.


(** X23. [StudyHabit.recommendation], for every float arithmetic of
    pandas, depends only on the entries of each date and their order
    within the date: two frames that hold, date by date, the same
    entries in the same order give the same consistency and the same
    message, however the rows of different dates are interleaved. *)
Theorem study_recommendation_depends_on_entries_per_date
    (self : Habit) (today : Z) (logs1 logs2 : DataFrame) :
  same_entries_per_date logs1 logs2 →
  study_recommendation self today logs1 = study_recommendation self today logs2.
Proof.
  intros Hsame%(last7_of_entries_per_date today).
  unfold study_recommendation, study_consistency, groupby_sum.
  by rewrite (empty_of_entries_per_date _ _ Hsame), (groupby_of_entries_per_date _ _ Hsame).
Qed.

(** X25. Only the window counts: a recommendation is the same, number
    and sentence, when the rows dated before [today - 6] are dropped
    from the frame, for all three kinds of habit.  (Rows dated after
    today stay in the window.) *)
Theorem recommendation_ignores_rows_before_window
    (self : Habit) (today : Z) (logs : DataFrame) :
  recommendation self today (filter (λ row, today - 6 ≤ row.1) logs) =
  recommendation self today logs.
Proof.
  change (filter (λ row, today - 6 ≤ row.1) logs) with (last7_of today logs).
  unfold recommendation, exercise_recommendation, study_recommendation,
    study_consistency, sleep_recommendation, sleep_variance.
  by rewrite !last7_of_idemp.
Qed.

End recommendation_facts.

Lemma exercise_without_recent_rows_witness :
  shown (exercise_recommendation
           (new_habit ExerciseHabit "Run" 30%Q) 739000 [(738990, 45%Q)]) = Some (num 0) ∧
  tip (exercise_recommendation
         (new_habit ExerciseHabit "Run" 30%Q) 739000 [(738990, 45%Q)]) = INCREMENT.
Proof.
  destruct (exercise_without_recent_rows
              (new_habit ExerciseHabit "Run" 30%Q) 739000 [(738990, 45%Q)] eq_refl)
    as (Hshown & _ & Htip).
  split; [exact Hshown|]. apply Htip. unfold Qle. simpl. lia.
Defined.

(** Two dates interleaved in two ways. *)
Lemma study_recommendation_depends_on_entries_per_date_witness :
  study_recommendation (new_habit StudyHabit "Reading" 60%Q) 739000
    [(739000, 60%Q); (738999, 45%Q); (738999, 30%Q)] =
  study_recommendation (new_habit StudyHabit "Reading" 60%Q) 739000
    [(738999, 45%Q); (739000, 60%Q); (738999, 30%Q)].
Proof.
  apply (study_recommendation_depends_on_entries_per_date
           (new_habit StudyHabit "Reading" 60%Q) 739000
           [(739000, 60%Q); (738999, 45%Q); (738999, 30%Q)]
           [(738999, 45%Q); (739000, 60%Q); (738999, 30%Q)]).
  intros d. unfold entries_on. rewrite !filter_cons, !filter_nil. simpl.
  destruct (decide (739000 = d)), (decide (738999 = d)); try reflexivity; lia.
Defined.

(** The recommendation of Exercise does depend on the order of the
    rows: in binary64 the mean of 0.3, 2.4 and 3.3 is 2 in this
    order and the double just below 2 in the reverse order, so against
    the target 2 the first frame gets the rest day and the second the
    incremental increase. *)
Example exercise_recommendation_depends_on_row_order :
  let dbl := Binary64.double in
  let self := new_habit ExerciseHabit "Run" 2%Q in
  let logs := [(738998, dbl (3 # 10)); (738999, dbl (24 # 10)); (739000, dbl (33 # 10))] in
  tip (recommendation self 739000 logs) = REST_DAY ∧
  tip (recommendation self 739000 (reverse logs)) = INCREMENT ∧
  REST_DAY ≠ INCREMENT.
Proof. vm_compute. repeat split; discriminate. Qed.

(** ** The factory *)

(** X11. [HabitFactory.create], key by key: ["Exercise (minutes)"]
    builds an [ExerciseHabit], ["Study (minutes)"] a [StudyHabit] and
    ["Sleep (hours)"] a [SleepHabit], each with the given name and
    target and a streak of 0; every other type fails with the
    [KeyError].  The habit built answers [recommendation] with the
    method of its class: the Exercise habit with one of the two
    Exercise sentences, the Study habit with one of the two Study
    sentences, the Sleep habit with one of the three Sleep sentences,
    for every float arithmetic of pandas. *)
Theorem create_by_type (h_type name : string) (tgt : Q) :
  create h_type name tgt =
    (if decide (h_type = "Exercise (minutes)")
     then Some (mkHabit ExerciseHabit name tgt 0)
     else if decide (h_type = "Study (minutes)")
     then Some (mkHabit StudyHabit name tgt 0)
     else if decide (h_type = "Sleep (hours)")
     then Some (mkHabit SleepHabit name tgt 0)
     else None) ∧
  ∀ (arithmetic : Reductions) (today : Z) (logs : DataFrame),
    (let r := recommendation (mkHabit ExerciseHabit name tgt 0) today logs in
     r = exercise_recommendation (mkHabit ExerciseHabit name tgt 0) today logs ∧
     (tip r = "Great pace—consider adding a rest day" ∨
      tip r = "Try 10–15% incremental increase next week")) ∧
    (let r := recommendation (mkHabit StudyHabit name tgt 0) today logs in
     r = study_recommendation (mkHabit StudyHabit name tgt 0) today logs ∧
     (tip r = "Lock in a Pomodoro block (25/5) at a fixed hour." ∨
      tip r = "Level up: add spaced-repetition review.")) ∧
    (let r := recommendation (mkHabit SleepHabit name tgt 0) today logs in
     r = sleep_recommendation (mkHabit SleepHabit name tgt 0) today logs ∧
     (tip r = "No recent data. Aim for a consistent bedtime window (±30 min)." ∨
      tip r = "Bedtime consistency looks good—maintain routine." ∨
      tip r = "Large variance—set a fixed screen-off time 1 hour before bed.")).
Proof.
  split.
  - unfold create.
    destruct (decide (h_type = "Exercise (minutes)")) as [->|H1]; [done|].
    destruct (decide (h_type = "Study (minutes)")) as [->|H2]; [done|].
    destruct (decide (h_type = "Sleep (hours)")) as [->|H3]; [done|].
    assert ((list_to_map TYPES : gmap string habit_class) !! h_type = None) as ->; [|done].
    simpl. by rewrite !lookup_insert_ne, lookup_empty.
  - intros arithmetic today logs. split; [|split]; (split; [reflexivity|]).
    + unfold recommendation, exercise_recommendation. cbn [cls tip].
      destruct (float_ge _ _); [by left|by right].
    + unfold recommendation, study_recommendation. cbn [cls tip].
      destruct (Qlt_bool _ _); [by left|by right].
    + unfold recommendation, sleep_recommendation. cbn [cls tip].
      destruct (sleep_variance today logs) as [v|]; [|by left].
      destruct (float_le _ _); [right; by left|right; by right].
Qed.

(** * Further properties of the repositories *)

Lemma sqlite_add_habit_returns (db : SQLiteRepo.t) (name h_type : string) (tgt : Q) :
  let rowid := SQLiteRepo.next_rowid (row_id <$> SQLiteRepo.habits db)
                 (SQLiteRepo.seq_habits db) in
  add_habit db name h_type tgt =
  Returned rowid
    (SQLiteRepo.mkDb (SQLiteRepo.habits db ++ [mkHabitRow rowid name h_type tgt])
       (SQLiteRepo.logs db) rowid (SQLiteRepo.seq_logs db)).
Proof. reflexivity. Qed.

Lemma sqlite_add_log_returns (db : SQLiteRepo.t) (hid : Z) (d : date) (amount : Q) :
  let rowid := SQLiteRepo.next_rowid (SQLiteRepo.log_id <$> SQLiteRepo.logs db)
                 (SQLiteRepo.seq_logs db) in
  add_log db hid d amount =
  Returned ()
    (SQLiteRepo.mkDb (SQLiteRepo.habits db)
       (SQLiteRepo.logs db ++ [SQLiteRepo.mkLogsRow rowid hid d amount])
       (SQLiteRepo.seq_habits db) rowid).
Proof. reflexivity. Qed.

(** ** Ids along a sequence of calls *)

Section run_ids.
Context {S : Type} `{Repository S} (next : S → Z).
Hypothesis Hstep : ∀ st c,
  next st ≤ next (step st c).1 ∧
  ∀ h, (step st c).2 = Some h → next st ≤ h < next (step st c).1.

Lemma run_ids_sorted (calls : list call) (st : S) :
  next st ≤ next (run st calls).1 ∧
  Forall (λ h, next st ≤ h < next (run st calls).1) (run st calls).2 ∧
  StronglySorted Z.lt (run st calls).2.
Proof.
  revert st. induction calls as [|c calls IH]; intros st.
  - simpl. split; [lia|]. split; constructor.
  - simpl. destruct (Hstep st c) as [Hle Hid].
    destruct (step st c) as [st' hid]. simpl in Hle, Hid.
    destruct (IH st') as (Hle' & Hall & Hsorted).
    destruct (run st' calls) as [st'' hids]. simpl in *.
    split; [lia|].
    assert (Forall (λ h, next st ≤ h < next st'') hids) as Hall'.
    { eapply Forall_impl; [exact Hall|]. simpl. intros h Hh. lia. }
    destruct hid as [h|]; [|done].
    specialize (Hid h eq_refl). split.
    + constructor; [lia|done].
    + constructor; [done|].
      eapply Forall_impl; [exact Hall|]. simpl. intros h' Hh'. lia.
Qed.

End run_ids.

Lemma memory_step_next (st : MemoryRepo.t) (c : call) :
  MemoryRepo._next_id st ≤ MemoryRepo._next_id (step st c).1 ∧
  ∀ h, (step st c).2 = Some h →
       MemoryRepo._next_id st ≤ h < MemoryRepo._next_id (step st c).1.
Proof.
  destruct c as [name h_type tgt|hid|hid d amount]; simpl.
  - split; [lia|]. intros h [= <-]. lia.
  - split; [lia|done].
  - split; [lia|done].
Qed.

Lemma sqlite_step_next (db : SQLiteRepo.t) (c : call) :
  SQLiteRepo.seq_habits db + 1 ≤ SQLiteRepo.seq_habits (step db c).1 + 1 ∧
  ∀ h, (step db c).2 = Some h →
       SQLiteRepo.seq_habits db + 1 ≤ h < SQLiteRepo.seq_habits (step db c).1 + 1.
Proof.
  destruct c as [name h_type tgt|hid|hid d amount]; simpl.
  - unfold SQLiteRepo.next_rowid. split; [lia|]. intros h [= <-]. lia.
  - split; [lia|done].
  - split; [lia|done].
Qed.

(** X12. Along every sequence of calls, from every state, the ids that
    [add_habit] returns are strictly increasing, on both repositories:
    an id is never handed out twice, also not after its habit was
    deleted. *)
Theorem add_habit_ids_increase (calls : list call) :
  (∀ db : SQLiteRepo.t, StronglySorted Z.lt (run db calls).2) ∧
  (∀ self : MemoryRepo.t, StronglySorted Z.lt (run self calls).2).
Proof.
  split.
  - intros db.
    apply (run_ids_sorted (λ db, SQLiteRepo.seq_habits db + 1) sqlite_step_next calls db).
  - intros self.
    apply (run_ids_sorted MemoryRepo._next_id memory_step_next calls self).
Qed.

(** ** Invariants of the stored habits *)

(** In the table [habits] every id is positive and at most the
    recorded sequence value, and no id occurs twice. *)
Lemma sqlite_ids_invariant (db : SQLiteRepo.t) :
  sqlite_reachable db →
  0 ≤ SQLiteRepo.seq_habits db ∧
  Forall (λ x, 1 ≤ x ≤ SQLiteRepo.seq_habits db) (row_id <$> SQLiteRepo.habits db) ∧
  NoDup (row_id <$> SQLiteRepo.habits db).
Proof.
  induction 1 as [|db name h_type tgt _ (Hseq & Hall & Hnd)
                  |db hid _ (Hseq & Hall & Hnd)|db hid d amount _ IH].
  - simpl. split; [lia|]. split; constructor.
  - rewrite sqlite_add_habit_returns. cbn zeta. simpl.
    pose proof (SQLiteFacts.next_rowid_fresh (row_id <$> SQLiteRepo.habits db)
                  (SQLiteRepo.seq_habits db)) as Hfresh.
    assert (SQLiteRepo.seq_habits db <
            SQLiteRepo.next_rowid (row_id <$> SQLiteRepo.habits db)
              (SQLiteRepo.seq_habits db)) as Hlt
      by (unfold SQLiteRepo.next_rowid; lia).
    split; [lia|]. rewrite fmap_app. simpl. split.
    + apply Forall_app. split.
      * eapply Forall_impl; [exact Hall|]. simpl. intros x Hx. lia.
      * constructor; [lia|constructor].
    + apply NoDup_app. split; [done|]. split; [|apply NoDup_singleton].
      intros x Hx ->%list_elem_of_singleton. done.
  - rewrite sqlite_delete_habit_returns. simpl.
    assert (row_id <$> filter (λ r, row_id r ≠ hid) (SQLiteRepo.habits db)
            `sublist_of` row_id <$> SQLiteRepo.habits db) as Hsub
      by (apply fmap_sublist, sublist_filter).
    split; [done|]. split.
    + rewrite Forall_forall in Hall. apply Forall_forall. intros x Hx.
      apply Hall. by eapply elem_of_sublist.
    + by eapply sublist_NoDup.
  - by rewrite sqlite_add_log_returns.
Qed.

(** In [_habits] every dict is stored under its own id. *)
Lemma memory_row_ids_are_keys (self : MemoryRepo.t) (k : Z) (r : habit_row) :
  reachable self → MemoryRepo._habits self !! k = Some r → row_id r = k.
Proof.
  intros Hr. revert k r.
  induction Hr as [|self name h_type tgt _ IH|self hid _ IH|self hid d amount _ IH];
    intros k r; simpl.
  - by rewrite lookup_empty.
  - destruct (decide (MemoryRepo._next_id self = k)) as [<-|Hne].
    + rewrite lookup_insert_eq. by intros [= <-].
    + rewrite lookup_insert_ne by done. apply IH.
  - destruct (decide (hid = k)) as [->|Hne].
    + by rewrite lookup_delete_eq.
    + rewrite lookup_delete_ne by done. apply IH.
  - apply IH.
Qed.

(** ** [list_habits] *)

#[local] Instance id_desc_total : Total id_desc.
Proof. intros r1 r2. unfold id_desc. lia. Qed.

#[local] Instance id_desc_trans : Transitive id_desc.
Proof. intros r1 r2 r3. unfold id_desc. lia. Qed.

Lemma memory_list_habits_sorted_values (self : MemoryRepo.t) :
  MemoryRepo.list_habits self =
  merge_sort id_desc (map_to_list (MemoryRepo._habits self)).*2.
Proof. unfold MemoryRepo.list_habits. by destruct (_.*2). Qed.

Lemma memory_values_ids (self : MemoryRepo.t) :
  reachable self →
  row_id <$> (map_to_list (MemoryRepo._habits self)).*2 =
  (map_to_list (MemoryRepo._habits self)).*1.
Proof.
  intros Hr. rewrite <- list_fmap_compose. apply list_fmap_ext.
  intros i [k r] Hin%list_elem_of_lookup_2. apply elem_of_map_to_list in Hin.
  simpl. by eapply memory_row_ids_are_keys.
Qed.

Lemma memory_values_elem_of (self : MemoryRepo.t) (r : habit_row) :
  reachable self →
  r ∈ (map_to_list (MemoryRepo._habits self)).*2 ↔
  MemoryRepo._habits self !! row_id r = Some r.
Proof.
  intros Hr. rewrite list_elem_of_fmap. split.
  - intros ([k r'] & -> & Hin%elem_of_map_to_list). simpl.
    by rewrite (memory_row_ids_are_keys self k r' Hr Hin).
  - intros Hin. exists (row_id r, r). by rewrite elem_of_map_to_list.
Qed.

Lemma head_filter_id_Some (hs : list habit_row) (k : Z) (r : habit_row) :
  NoDup (row_id <$> hs) →
  head (filter (λ r', row_id r' = k) hs) = Some r ↔ r ∈ hs ∧ row_id r = k.
Proof.
  intros Hnd. split.
  - intros Hin%head_Some_elem_of. apply list_elem_of_filter in Hin. tauto.
  - induction hs as [|h hs IH]; intros [Hin Hk]; [by apply elem_of_nil in Hin|].
    rewrite fmap_cons in Hnd. apply NoDup_cons in Hnd as [Hh Hnd].
    rewrite filter_cons. destruct (decide (row_id h = k)) as [Heq|Hne]; simpl.
    + apply elem_of_cons in Hin as [->|Hin]; [done|].
      destruct Hh. rewrite Heq, <- Hk. by apply list_elem_of_fmap_2.
    + apply elem_of_cons in Hin as [->|Hin]; [done|]. by apply IH.
Qed.

Lemma sorted_by_distinct_ids (l : list habit_row) :
  StronglySorted id_desc l → NoDup (row_id <$> l) →
  StronglySorted (λ r1 r2, row_id r2 < row_id r1) l.
Proof.
  induction 1 as [|r l _ IH Hall]; intros Hnd; constructor.
  - apply IH. rewrite fmap_cons in Hnd. by apply NoDup_cons in Hnd as [_ ?].
  - rewrite fmap_cons in Hnd. apply NoDup_cons in Hnd as [Hr _].
    rewrite Forall_forall in Hall. apply Forall_forall. intros r' Hr'.
    specialize (Hall r' Hr'). unfold id_desc in Hall.
    assert (row_id r' ≠ row_id r); [|lia].
    intros Heq. apply Hr. rewrite <- Heq. by apply list_elem_of_fmap_2.
Qed.

(** X13. In every reachable state, on both repositories, [list_habits]
    lists exactly the stored habits (a row is listed if and only if it
    is the record stored under its id), in strictly descending order of
    id, the most recently created habit first. *)
Theorem list_habits_shows_stored_habits :
  (∀ db : SQLiteRepo.t,
     sqlite_reachable db →
     StronglySorted (λ r1 r2, row_id r2 < row_id r1) (list_habits db) ∧
     ∀ r, r ∈ list_habits db ↔ habit_record db (row_id r) = Some r) ∧
  (∀ self : MemoryRepo.t,
     reachable self →
     StronglySorted (λ r1 r2, row_id r2 < row_id r1) (list_habits self) ∧
     ∀ r, r ∈ list_habits self ↔ habit_record self (row_id r) = Some r).
Proof.
  split.
  - intros db (_ & _ & Hnd)%sqlite_ids_invariant. simpl.
    unfold SQLiteRepo.list_habits, SQLiteRepo.habit_record. split.
    + apply sorted_by_distinct_ids; [apply StronglySorted_merge_sort; apply _|].
      by rewrite merge_sort_Permutation.
    + intros r. rewrite merge_sort_Permutation, head_filter_id_Some by done. tauto.
  - intros self Hr. simpl.
    rewrite memory_list_habits_sorted_values. unfold MemoryRepo.habit_record. split.
    + apply sorted_by_distinct_ids; [apply StronglySorted_merge_sort; apply _|].
      rewrite merge_sort_Permutation, memory_values_ids by done.
      apply NoDup_fst_map_to_list.
    + intros r. rewrite merge_sort_Permutation. by apply memory_values_elem_of.
Qed.

Lemma list_habits_shows_stored_habits_witness :
  StronglySorted (λ r1 r2, row_id r2 < row_id r1)
    (list_habits (two_habits_logged MemoryRepo.init)) ∧
  ∀ r, r ∈ list_habits (two_habits_logged MemoryRepo.init) ↔
       habit_record (two_habits_logged MemoryRepo.init) (row_id r) = Some r.
Proof.
  apply (proj2 list_habits_shows_stored_habits).
  unfold two_habits_logged. do 2 apply reach_add_log. do 2 apply reach_add_habit.
  apply reach_init.
Defined.

Lemma head_sorted_newest (l rows : list habit_row) (new : habit_row) :
  StronglySorted id_desc l → l ≡ₚ new :: rows →
  (∀ r, r ∈ rows → row_id r < row_id new) →
  head l = Some new.
Proof.
  intros Hs Hp Hold. destruct l as [|x l'].
  { by apply Permutation_nil_cons in Hp. }
  simpl. f_equal. apply StronglySorted_inv in Hs as [_ Hall].
  assert (x ∈ new :: rows) as Hx by (rewrite <- Hp; left).
  apply elem_of_cons in Hx as [->|Hx]; [done|exfalso].
  assert (new ∈ x :: l') as Hnew by (rewrite Hp; left).
  apply elem_of_cons in Hnew as [->|Hnew].
  - specialize (Hold _ Hx). lia.
  - rewrite Forall_forall in Hall. specialize (Hall _ Hnew).
    specialize (Hold _ Hx). unfold id_desc in Hall. lia.
Qed.

(** X14. The habit that [add_habit] has just stored is the first row of
    [list_habits], on both repositories (for a [MemoryRepo], in the
    states an object can reach). *)
Theorem add_habit_is_listed_first (name h_type : string) (tgt : Q) :
  (∀ db : SQLiteRepo.t,
     ∃ hid db',
       add_habit db name h_type tgt = Returned hid db' ∧
       head (list_habits db') = Some (mkHabitRow hid name h_type tgt)) ∧
  (∀ self : MemoryRepo.t,
     reachable self →
     ∃ hid self',
       add_habit self name h_type tgt = Returned hid self' ∧
       head (list_habits self') = Some (mkHabitRow hid name h_type tgt)).
Proof.
  split.
  - intros db. eexists _, _. split; [apply sqlite_add_habit_returns|].
    cbn zeta. simpl. unfold SQLiteRepo.list_habits. simpl.
    apply (head_sorted_newest _ (SQLiteRepo.habits db)).
    + apply StronglySorted_merge_sort; apply _.
    + rewrite merge_sort_Permutation. symmetry. apply Permutation_cons_append.
    + intros r Hr. simpl.
      pose proof (SQLiteFacts.le_foldr_max (row_id <$> SQLiteRepo.habits db) (row_id r)
                    (list_elem_of_fmap_2 _ _ _ Hr)).
      unfold SQLiteRepo.next_rowid. lia.
  - intros self Hr. eexists _, _. split; [reflexivity|]. simpl.
    rewrite memory_list_habits_sorted_values. simpl.
    assert (MemoryRepo._habits self !! MemoryRepo._next_id self = None) as Hnone.
    { destruct (MemoryRepo._habits self !! MemoryRepo._next_id self) eqn:E; [|done].
      pose proof (MemoryFacts.ids_below_next self _ Hr (mk_is_Some _ _ E)). lia. }
    apply (head_sorted_newest _ (map_to_list (MemoryRepo._habits self)).*2).
    + apply StronglySorted_merge_sort; apply _.
    + by rewrite merge_sort_Permutation, map_to_list_insert.
    + intros r Hin%memory_values_elem_of; [|done]. simpl.
      apply (MemoryFacts.ids_below_next self _ Hr). eauto.
Qed.

Lemma add_habit_is_listed_first_witness :
  ∃ hid self',
    add_habit (two_habits_logged MemoryRepo.init) "Reading" "Study (minutes)" 60%Q =
      Returned hid self' ∧
    head (list_habits self') = Some (mkHabitRow hid "Reading" "Study (minutes)" 60%Q).
Proof.
  apply (proj2 (add_habit_is_listed_first "Reading" "Study (minutes)" 60%Q)).
  unfold two_habits_logged. do 2 apply reach_add_log. do 2 apply reach_add_habit.
  apply reach_init.
Defined.

(** ** The Daily Check-in *)

Lemma head_filter_sorted_max (P : habit_row → Prop) `{!∀ r, Decision (P r)}
    (l rest : list habit_row) (x : habit_row) :
  StronglySorted id_desc l → filter P l = x :: rest →
  ∀ r, r ∈ l → P r → row_id r ≤ row_id x.
Proof.
  induction 1 as [|a l Hs IH Hall]; intros Hf r Hr HP; [by apply elem_of_nil in Hr|].
  rewrite filter_cons in Hf. destruct (decide (P a)) as [Ha|Hna].
  - injection Hf as -> _.
    apply elem_of_cons in Hr as [->|Hr]; [lia|].
    rewrite Forall_forall in Hall. apply (Hall r Hr).
  - apply elem_of_cons in Hr as [->|Hr]; [done|]. by apply IH.
Qed.

Section check_in.
Context {S : Type} `{Repository S, Listing S}.
Hypothesis Hsorted : ∀ repo : S, StronglySorted id_desc (list_habits repo).

Lemma check_in_latest (repo : S) (sel : string) (d : date) (amt : Q) :
  sel ∈ row_name <$> list_habits repo →
  ∃ hrow,
    hrow ∈ list_habits repo ∧ row_name hrow = sel ∧
    (∀ r, r ∈ list_habits repo → row_name r = sel → row_id r ≤ row_id hrow) ∧
    check_in repo sel d amt = Some (add_log repo (row_id hrow) d amt).
Proof.
  intros (r0 & -> & Hr0)%list_elem_of_fmap. unfold check_in. cbn zeta.
  destruct (filter (λ r, row_name r = row_name r0) (list_habits repo))
    as [|hrow rest] eqn:E.
  - exfalso. by eapply (filter_nil_not_elem_of _ _ r0 E).
  - assert (hrow ∈ filter (λ r, row_name r = row_name r0) (list_habits repo)) as Hin
      by (rewrite E; left).
    apply list_elem_of_filter in Hin as [Hname Hin].
    exists hrow. split; [done|]. split; [done|]. split; [|done].
    by eapply head_filter_sorted_max.
Qed.

End check_in.

(** X15. The Log button of the Daily Check-in: for a name of the
    listed habits, the entry is logged to a listed habit of that name,
    and among the listed habits of that name to the one with the
    largest id, the one created last; on both repositories. *)
Theorem check_in_logs_to_latest_habit_of_name (sel : string) (d : date) (amt : Q) :
  (∀ db : SQLiteRepo.t,
     sel ∈ row_name <$> list_habits db →
     ∃ hrow,
       hrow ∈ list_habits db ∧ row_name hrow = sel ∧
       (∀ r, r ∈ list_habits db → row_name r = sel → row_id r ≤ row_id hrow) ∧
       check_in db sel d amt = Some (add_log db (row_id hrow) d amt)) ∧
  (∀ self : MemoryRepo.t,
     sel ∈ row_name <$> list_habits self →
     ∃ hrow,
       hrow ∈ list_habits self ∧ row_name hrow = sel ∧
       (∀ r, r ∈ list_habits self → row_name r = sel → row_id r ≤ row_id hrow) ∧
       check_in self sel d amt = Some (add_log self (row_id hrow) d amt)).
Proof.
  split.
  - intros db. apply check_in_latest. intros repo. simpl.
    apply StronglySorted_merge_sort; apply _.
  - intros self. apply check_in_latest. intros repo. simpl.
    rewrite memory_list_habits_sorted_values.
    apply StronglySorted_merge_sort; apply _.
Qed.

Lemma check_in_logs_to_latest_habit_of_name_witness :
  let db := store_of (add_habit (store_of (add_habit SQLiteRepo.init
                        "Run" "Exercise (minutes)" 30%Q))
                        "Run" "Exercise (minutes)" 45%Q) in
  ∃ hrow,
    hrow ∈ list_habits db ∧ row_name hrow = "Run" ∧
    (∀ r, r ∈ list_habits db → row_name r = "Run" → row_id r ≤ row_id hrow) ∧
    check_in db "Run" 739000 20%Q = Some (add_log db (row_id hrow) 739000 20%Q).
Proof.
  apply (proj1 (check_in_logs_to_latest_habit_of_name "Run" 739000 20%Q)).
  vm_compute. left.
Defined.

(** ** The effect of each call on what the other methods return *)

Lemma sqlite_habit_record_add_habit
    (db : SQLiteRepo.t) (name h_type : string) (tgt : Q) (k : Z) :
  let rowid := SQLiteRepo.next_rowid (row_id <$> SQLiteRepo.habits db)
                 (SQLiteRepo.seq_habits db) in
  habit_record (store_of (add_habit db name h_type tgt)) k =
  if decide (k = rowid) then Some (mkHabitRow rowid name h_type tgt)
  else habit_record db k.
Proof.
  intros rowid. simpl. unfold SQLiteRepo.habit_record. simpl. fold rowid.
  rewrite filter_app. destruct (decide (k = rowid)) as [->|Hne].
  - rewrite SQLiteFacts.filter_all_nil.
    + by rewrite (filter_cons_True _ _ []).
    + intros r Hr Heq.
      apply (SQLiteFacts.next_rowid_fresh (row_id <$> SQLiteRepo.habits db)
               (SQLiteRepo.seq_habits db)).
      fold rowid. rewrite <- Heq. by apply list_elem_of_fmap_2.
  - rewrite (filter_cons_False _ _ []) by (simpl; congruence).
    by rewrite filter_nil, app_nil_r.
Qed.

Lemma sqlite_habit_record_delete_habit (db : SQLiteRepo.t) (hid k : Z) :
  habit_record (store_of (delete_habit db hid)) k =
  if decide (k = hid) then None else habit_record db k.
Proof.
  rewrite sqlite_delete_habit_returns. simpl. destruct (decide (k = hid)) as [->|Hne].
  - apply SQLiteFacts.habit_record_None. simpl. apply not_elem_of_fmap_filter_ne.
  - unfold SQLiteRepo.habit_record. simpl.
    by rewrite list_filter_filter_l by (intros; congruence).
Qed.

Lemma sqlite_get_logs_delete_habit (db : SQLiteRepo.t) (hid k : Z) :
  get_logs (store_of (delete_habit db hid)) k =
  if decide (k = hid) then [] else get_logs db k.
Proof.
  rewrite sqlite_delete_habit_returns. simpl. destruct (decide (k = hid)) as [->|Hne].
  - apply SQLiteFacts.get_logs_nil. simpl. apply not_elem_of_fmap_filter_ne.
  - unfold SQLiteRepo.get_logs, SQLiteRepo.select_logs. simpl.
    by rewrite list_filter_filter_l by (intros; congruence).
Qed.

Lemma sqlite_get_logs_add_log_ne (db : SQLiteRepo.t) (hid k : Z) (d : date) (amount : Q) :
  k ≠ hid → get_logs (store_of (add_log db hid d amount)) k = get_logs db k.
Proof.
  intros Hne. simpl. unfold SQLiteRepo.get_logs, SQLiteRepo.select_logs. simpl.
  rewrite filter_app, (filter_cons_False _ _ []) by (simpl; congruence).
  by rewrite filter_nil, app_nil_r.
Qed.

Lemma sqlite_get_logs_add_log_eq (db : SQLiteRepo.t) (hid : Z) (d : date) (amount : Q) :
  get_logs (store_of (add_log db hid d amount)) hid ≡ₚ get_logs db hid ++ [(d, amount)].
Proof.
  simpl. rewrite !SQLiteFacts.get_logs_Permutation. simpl.
  rewrite filter_app, fmap_app. by rewrite (filter_cons_True _ _ []).
Qed.

Lemma memory_habit_record_add_habit
    (self : MemoryRepo.t) (name h_type : string) (tgt : Q) (k : Z) :
  habit_record (store_of (add_habit self name h_type tgt)) k =
  if decide (k = MemoryRepo._next_id self)
  then Some (mkHabitRow (MemoryRepo._next_id self) name h_type tgt)
  else habit_record self k.
Proof.
  simpl. unfold MemoryRepo.habit_record. simpl.
  destruct (decide (k = MemoryRepo._next_id self)) as [->|Hne].
  - apply lookup_insert_eq.
  - by rewrite lookup_insert_ne.
Qed.

Lemma memory_get_logs_add_habit
    (self : MemoryRepo.t) (name h_type : string) (tgt : Q) (k : Z) :
  get_logs (store_of (add_habit self name h_type tgt)) k =
  if decide (k = MemoryRepo._next_id self) then [] else get_logs self k.
Proof.
  simpl. rewrite !MemoryFacts.get_logs_rows. simpl.
  destruct (decide (k = MemoryRepo._next_id self)) as [->|Hne].
  - by rewrite lookup_insert_eq.
  - by rewrite lookup_insert_ne.
Qed.

Lemma memory_habit_record_delete_habit (self : MemoryRepo.t) (hid k : Z) :
  habit_record (store_of (delete_habit self hid)) k =
  if decide (k = hid) then None else habit_record self k.
Proof.
  simpl. unfold MemoryRepo.habit_record. simpl.
  destruct (decide (k = hid)) as [->|Hne].
  - apply lookup_delete_eq.
  - by rewrite lookup_delete_ne.
Qed.

Lemma memory_get_logs_delete_habit (self : MemoryRepo.t) (hid k : Z) :
  get_logs (store_of (delete_habit self hid)) k =
  if decide (k = hid) then [] else get_logs self k.
Proof.
  simpl. rewrite !MemoryFacts.get_logs_rows. simpl.
  destruct (decide (k = hid)) as [->|Hne].
  - by rewrite lookup_delete_eq.
  - by rewrite lookup_delete_ne.
Qed.

Lemma memory_get_logs_add_log (self : MemoryRepo.t) (hid k : Z) (d : date) (amount : Q) :
  get_logs (store_of (add_log self hid d amount)) k =
  if decide (k = hid) then get_logs self hid ++ [(d, amount)] else get_logs self k.
Proof.
  simpl. rewrite !MemoryFacts.get_logs_rows. simpl.
  destruct (decide (k = hid)) as [->|Hne].
  - by rewrite lookup_insert_eq.
  - by rewrite lookup_insert_ne.
Qed.

(** The rows of the table [logs], call by call. *)
Lemma logged_rows_delete_habit (db : SQLiteRepo.t) (hid k : Z) :
  logged_rows (store_of (delete_habit db hid)) k =
  if decide (k = hid) then [] else logged_rows db k.
Proof.
  rewrite sqlite_delete_habit_returns. unfold logged_rows. simpl.
  destruct (decide (k = hid)) as [->|Hne].
  - rewrite SQLiteFacts.filter_all_nil; [done|].
    intros r [Hr _]%list_elem_of_filter. done.
  - by rewrite list_filter_filter_l by (intros; congruence).
Qed.

Lemma logged_rows_add_log (db : SQLiteRepo.t) (hid k : Z) (d : date) (amount : Q) :
  logged_rows (store_of (add_log db hid d amount)) k =
  if decide (k = hid) then logged_rows db hid ++ [(d, amount)] else logged_rows db k.
Proof.
  unfold logged_rows. simpl. rewrite filter_app.
  destruct (decide (k = hid)) as [->|Hne].
  - by rewrite (filter_cons_True _ _ []), fmap_app.
  - rewrite (filter_cons_False _ _ []) by (simpl; congruence).
    by rewrite filter_nil, app_nil_r.
Qed.

(** ** The two repositories side by side *)

Lemma next_rowid_of_bounded (ids : list Z) (seq : Z) :
  0 ≤ seq → Forall (λ x, x ≤ seq) ids → SQLiteRepo.next_rowid ids seq = seq + 1.
Proof.
  intros Hseq Hall. unfold SQLiteRepo.next_rowid.
  assert (foldr Z.max 0 ids ≤ seq); [|lia].
  induction Hall as [|x ids Hx _ IH]; simpl; lia.
Qed.

Lemma same_content_init : same_content SQLiteRepo.init MemoryRepo.init.
Proof.
  split; [done|]. split; [done|]. split; [done|]. split; [done|].
  split; [constructor|done].
Qed.

Lemma same_content_step (db : SQLiteRepo.t) (self : MemoryRepo.t) (c : call) :
  same_content db self →
  match c with
  | AddLog hid _ _ => habit_record self hid ≠ None
  | _ => True
  end →
  same_content (step db c).1 (step self c).1 ∧ (step db c).2 = (step self c).2.
Proof.
  intros (Hrec & Hlogs & Horphan & Hseq & Hids & Hnext) Htarget.
  pose proof (next_rowid_of_bounded _ _ Hseq Hids) as Hrowid.
  destruct c as [name h_type tgt|hid|hid d amount].
  - (* add_habit *)
    change (step db (AddHabit name h_type tgt)).1
      with (store_of (add_habit db name h_type tgt)).
    change (step self (AddHabit name h_type tgt)).1
      with (store_of (add_habit self name h_type tgt)).
    split; [|simpl; f_equal; lia].
    assert (habit_record self (MemoryRepo._next_id self) = None) as Hfresh.
    { rewrite <- Hrec, <- Hnext, <- Hrowid.
      apply SQLiteFacts.habit_record_None, SQLiteFacts.next_rowid_fresh. }
    split; [|split; [|split; [|split; [|split]]]].
    + intros k. rewrite sqlite_habit_record_add_habit, memory_habit_record_add_habit.
      cbn zeta. rewrite Hrowid, Hnext. by destruct (decide _).
    + intros k. rewrite memory_get_logs_add_habit.
      change (logged_rows (store_of (add_habit db name h_type tgt)) k)
        with (logged_rows db k).
      destruct (decide _) as [->|]; [|done].
      by rewrite Hlogs, (Horphan _ Hfresh).
    + intros k. rewrite memory_habit_record_add_habit, memory_get_logs_add_habit.
      destruct (decide _); [done|]. apply Horphan.
    + simpl. lia.
    + simpl. rewrite fmap_app. apply Forall_app. split.
      * eapply Forall_impl; [exact Hids|]. simpl. intros x Hx. lia.
      * constructor; [simpl; lia|constructor].
    + simpl. lia.
  - (* delete_habit *)
    change (step db (DeleteHabit hid)).1 with (store_of (delete_habit db hid)).
    change (step self (DeleteHabit hid)).1 with (store_of (delete_habit self hid)).
    split; [|done].
    split; [|split; [|split; [|split; [|split]]]].
    + intros k.
      rewrite sqlite_habit_record_delete_habit, memory_habit_record_delete_habit.
      by destruct (decide _).
    + intros k. rewrite logged_rows_delete_habit, memory_get_logs_delete_habit.
      by destruct (decide _).
    + intros k. rewrite memory_habit_record_delete_habit, memory_get_logs_delete_habit.
      destruct (decide _); [done|]. apply Horphan.
    + by rewrite sqlite_delete_habit_returns.
    + rewrite sqlite_delete_habit_returns. simpl.
      rewrite Forall_forall in Hids. apply Forall_forall. intros x Hx. apply Hids.
      eapply elem_of_sublist; [exact Hx|]. apply fmap_sublist, sublist_filter.
    + by rewrite sqlite_delete_habit_returns.
  - (* add_log *)
    change (step db (AddLog hid d amount)).1 with (store_of (add_log db hid d amount)).
    change (step self (AddLog hid d amount)).1
      with (store_of (add_log self hid d amount)).
    split; [|done].
    split; [|split; [|split; [|split; [|split]]]].
    + intros k. apply (Hrec k).
    + intros k. rewrite logged_rows_add_log, memory_get_logs_add_log.
      destruct (decide (k = hid)); by rewrite Hlogs.
    + intros k Hk. rewrite memory_get_logs_add_log.
      destruct (decide (k = hid)) as [->|Hne]; [by destruct Htarget|].
      by apply Horphan.
    + done.
    + done.
    + done.
Qed.

Lemma same_content_run (calls : list call) (db : SQLiteRepo.t) (self : MemoryRepo.t) :
  same_content db self → logs_target_habits self calls →
  same_content (run db calls).1 (run self calls).1 ∧
  (run db calls).2 = (run self calls).2.
Proof.
  revert db self. induction calls as [|c calls IH]; intros db self Hsame Hcalls.
  - done.
  - destruct Hcalls as [Hc Hcalls].
    destruct (same_content_step db self c Hsame) as [Hsame' Hid].
    { by destruct c. }
    simpl. destruct (step db c) as [db' hid], (step self c) as [self' hid'].
    simpl in *. subst hid'.
    destruct (IH db' self' Hsame' Hcalls) as [Hsame'' Hids].
    destruct (run db' calls) as [db'' hids], (run self' calls) as [self'' hids'].
    simpl in *. subst hids'. done.
Qed.

(** X16. The two repositories cannot be told apart, up to the order of
    the log entries, by a sequence of calls in which every [add_log] is
    for a habit that exists at that time (as every call of the
    check-in form is): from new repositories the same calls return the
    same ids and leave the same habit record under every id and, for
    every id, the same log entries in [get_logs] up to their order. *)
Theorem repositories_agree_on_calls (calls : list call) :
  logs_target_habits MemoryRepo.init calls →
  (run SQLiteRepo.init calls).2 = (run MemoryRepo.init calls).2 ∧
  ∀ k,
    habit_record (run SQLiteRepo.init calls).1 k =
      habit_record (run MemoryRepo.init calls).1 k ∧
    get_logs (run SQLiteRepo.init calls).1 k ≡ₚ get_logs (run MemoryRepo.init calls).1 k.
Proof.
  intros Hcalls.
  destruct (same_content_run calls _ _ same_content_init Hcalls)
    as [(Hrec & Hlogs & _) Hids].
  split; [done|]. intros k. split; [apply Hrec|].
  rewrite <- Hlogs. apply SQLiteFacts.get_logs_Permutation.
Qed.

Lemma repositories_agree_on_calls_witness :
  let calls := [AddHabit "Run" "Exercise (minutes)" 30%Q;
                AddLog 1 739001 45%Q; AddLog 1 739000 20%Q;
                DeleteHabit 1;
                AddHabit "Sleep" "Sleep (hours)" 8%Q;
                AddLog 2 739000 7%Q] in
  (run SQLiteRepo.init calls).2 = (run MemoryRepo.init calls).2 ∧
  ∀ k,
    habit_record (run SQLiteRepo.init calls).1 k =
      habit_record (run MemoryRepo.init calls).1 k ∧
    get_logs (run SQLiteRepo.init calls).1 k ≡ₚ get_logs (run MemoryRepo.init calls).1 k.
Proof.
  apply (repositories_agree_on_calls
           [AddHabit "Run" "Exercise (minutes)" 30%Q;
            AddLog 1 739001 45%Q; AddLog 1 739000 20%Q;
            DeleteHabit 1;
            AddHabit "Sleep" "Sleep (hours)" 8%Q;
            AddLog 2 739000 7%Q]).
  vm_compute. repeat split; discriminate.
Defined.

(** X18. After such a sequence of calls no log entry is left without
    habit: for an id that identifies no habit, [get_logs] is empty, on
    both repositories. *)
Theorem no_logs_without_habit (calls : list call) :
  logs_target_habits MemoryRepo.init calls →
  ∀ k,
    (habit_record (run SQLiteRepo.init calls).1 k = None →
     get_logs (run SQLiteRepo.init calls).1 k = []) ∧
    (habit_record (run MemoryRepo.init calls).1 k = None →
     get_logs (run MemoryRepo.init calls).1 k = []).
Proof.
  intros Hcalls k.
  destruct (same_content_run calls _ _ same_content_init Hcalls)
    as [(Hrec & Hlogs & Horphan & _) _].
  split; [|apply Horphan].
  rewrite Hrec. intros Hnone. apply Permutation_nil_r.
  rewrite <- (Horphan k Hnone), <- Hlogs. apply SQLiteFacts.get_logs_Permutation.
Qed.

Lemma no_logs_without_habit_witness :
  let calls := [AddHabit "Run" "Exercise (minutes)" 30%Q;
                AddLog 1 739000 45%Q; DeleteHabit 1] in
  get_logs (run SQLiteRepo.init calls).1 1 = [] ∧
  get_logs (run MemoryRepo.init calls).1 1 = [].
Proof.
  pose proof (no_logs_without_habit
                [AddHabit "Run" "Exercise (minutes)" 30%Q;
                 AddLog 1 739000 45%Q; DeleteHabit 1]) as Hno.
  destruct (Hno ltac:(vm_compute; repeat split; discriminate) 1) as [Hdb Hself].
  split; [apply Hdb|apply Hself]; reflexivity.
Defined.

(** ** Frames and round trips *)

(** X19. [add_habit] leaves what is stored for the other ids as it is:
    on both repositories the habit record of every id other than the
    returned one is unchanged; on [SQLiteRepo] [get_logs] is unchanged
    for every id, on [MemoryRepo] for every id other than the returned
    one. *)
Theorem add_habit_frames_other_ids (name h_type : string) (tgt : Q) :
  (∀ db : SQLiteRepo.t,
     ∃ hid db',
       add_habit db name h_type tgt = Returned hid db' ∧
       (∀ k, k ≠ hid → habit_record db' k = habit_record db k) ∧
       (∀ k, get_logs db' k = get_logs db k)) ∧
  (∀ self : MemoryRepo.t,
     ∃ hid self',
       add_habit self name h_type tgt = Returned hid self' ∧
       (∀ k, k ≠ hid → habit_record self' k = habit_record self k) ∧
       (∀ k, k ≠ hid → get_logs self' k = get_logs self k)).
Proof.
  split.
  - intros db. eexists _, _. split; [apply sqlite_add_habit_returns|].
    split; [|done]. intros k Hk.
    pose proof (sqlite_habit_record_add_habit db name h_type tgt k) as Hrec.
    cbn zeta in Hrec. rewrite decide_False in Hrec by done. exact Hrec.
  - intros self. eexists _, _. split; [reflexivity|]. split; intros k Hk.
    + pose proof (memory_habit_record_add_habit self name h_type tgt k) as Hrec.
      rewrite decide_False in Hrec by done. exact Hrec.
    + pose proof (memory_get_logs_add_habit self name h_type tgt k) as Hlogs.
      rewrite decide_False in Hlogs by done. exact Hlogs.
Qed.

(** X20. [SQLiteRepo.add_log] and [get_logs]: the call raises nothing
    and leaves the table of habits as it is; afterwards [get_logs] of
    the id has the earlier entries and the new one, and [get_logs] of
    every other id is unchanged. *)
Theorem sqlite_add_log_round_trip (db : SQLiteRepo.t) (hid : Z) (d : date) (amount : Q) :
  ∃ db',
    add_log db hid d amount = Returned () db' ∧
    SQLiteRepo.habits db' = SQLiteRepo.habits db ∧
    get_logs db' hid ≡ₚ get_logs db hid ++ [(d, amount)] ∧
    (∀ k, k ≠ hid → get_logs db' k = get_logs db k).
Proof.
  eexists. split; [apply sqlite_add_log_returns|]. split; [done|]. split.
  - apply (sqlite_get_logs_add_log_eq db hid d amount).
  - intros k Hk. by apply (sqlite_get_logs_add_log_ne db hid k d amount).
Qed.

(** X21. Deleting is idempotent: a second [delete_habit] of the same
    id raises nothing and leaves the store exactly as the first call
    left it, on both repositories. *)
Theorem delete_habit_twice (hid : Z) :
  (∀ db : SQLiteRepo.t,
     delete_habit (store_of (delete_habit db hid)) hid =
     Returned () (store_of (delete_habit db hid))) ∧
  (∀ self : MemoryRepo.t,
     delete_habit (store_of (delete_habit self hid)) hid =
     Returned () (store_of (delete_habit self hid))).
Proof.
  split.
  - intros db. rewrite !sqlite_delete_habit_returns. simpl.
    by rewrite !list_filter_filter_l by (intros; congruence).
  - intros self. simpl. unfold MemoryRepo.delete_habit. simpl.
    by rewrite !delete_delete_eq.
Qed.

(** ** [list_habits] on the two repositories *)

Lemma step_store {S} `{Repository S} (st : S) (c : call) :
  (step st c).1 =
  match c with
  | AddHabit name h_type tgt => store_of (add_habit st name h_type tgt)
  | DeleteHabit hid => store_of (delete_habit st hid)
  | AddLog hid d amount => store_of (add_log st hid d amount)
  end.
Proof. destruct c; simpl; [|done|done]. by destruct (add_habit _ _ _ _). Qed.

Lemma run_cons_store {S} `{Repository S} (st : S) (c : call) (calls : list call) :
  (run st (c :: calls)).1 = (run (step st c).1 calls).1.
Proof. simpl. by destruct (step st c), (run _ calls). Qed.

Lemma sqlite_run_reachable (calls : list call) (db : SQLiteRepo.t) :
  sqlite_reachable db → sqlite_reachable (run db calls).1.
Proof.
  revert db. induction calls as [|c calls IH]; intros db Hr; [done|].
  rewrite run_cons_store. apply IH. rewrite step_store.
  destruct c; by constructor.
Qed.

Lemma memory_run_reachable (calls : list call) (self : MemoryRepo.t) :
  reachable self → reachable (run self calls).1.
Proof.
  revert self. induction calls as [|c calls IH]; intros self Hr; [done|].
  rewrite run_cons_store. apply IH. rewrite step_store.
  destruct c; by constructor.
Qed.

Lemma sqlite_listed_iff (db : SQLiteRepo.t) (r : habit_row) :
  sqlite_reachable db →
  r ∈ list_habits db ↔ habit_record db (row_id r) = Some r.
Proof.
  intros (_ & _ & Hnd)%sqlite_ids_invariant. simpl.
  unfold SQLiteRepo.list_habits, SQLiteRepo.habit_record.
  rewrite merge_sort_Permutation, head_filter_id_Some by done. tauto.
Qed.

Lemma memory_listed_iff (self : MemoryRepo.t) (r : habit_row) :
  reachable self →
  r ∈ list_habits self ↔ habit_record self (row_id r) = Some r.
Proof.
  intros Hr. simpl. rewrite memory_list_habits_sorted_values, merge_sort_Permutation.
  by apply memory_values_elem_of.
Qed.

Lemma sqlite_listed_NoDup (db : SQLiteRepo.t) :
  sqlite_reachable db → NoDup (list_habits db).
Proof.
  intros (_ & _ & Hnd)%sqlite_ids_invariant. simpl. unfold SQLiteRepo.list_habits.
  rewrite merge_sort_Permutation. by apply (NoDup_fmap_1 row_id).
Qed.

Lemma memory_listed_NoDup (self : MemoryRepo.t) :
  reachable self → NoDup (list_habits self).
Proof.
  intros Hr. simpl. rewrite memory_list_habits_sorted_values, merge_sort_Permutation.
  apply (NoDup_fmap_1 row_id). rewrite memory_values_ids by done.
  apply NoDup_fst_map_to_list.
Qed.

(** X22. After a sequence of calls in which every [add_log] is for an
    existing habit, [list_habits] returns the same rows in the same
    order on both repositories. *)
Theorem list_habits_same_on_both_repositories (calls : list call) :
  logs_target_habits MemoryRepo.init calls →
  list_habits (run SQLiteRepo.init calls).1 = list_habits (run MemoryRepo.init calls).1.
Proof.
  intros Hcalls.
  destruct (same_content_run calls _ _ same_content_init Hcalls) as [(Hrec & _) _].
  pose proof (sqlite_run_reachable calls _ sqlite_reach_init) as Hdb.
  pose proof (memory_run_reachable calls _ reach_init) as Hself.
  set (db := (run SQLiteRepo.init calls).1) in *.
  set (self := (run MemoryRepo.init calls).1) in *.
  assert (∀ r, r ∈ list_habits db ↔ r ∈ list_habits self) as Hsame.
  { intros r. by rewrite sqlite_listed_iff, memory_listed_iff, Hrec. }
  apply (StronglySorted_unique_strong id_desc).
  - intros r1 r2 H1 H2 H12 H21. unfold id_desc in H12, H21.
    apply Hsame, memory_listed_iff in H1; [|done].
    apply memory_listed_iff in H2; [|done].
    assert (row_id r1 = row_id r2) as Heq by lia.
    rewrite Heq in H1. congruence.
  - simpl. apply StronglySorted_merge_sort; apply _.
  - simpl. rewrite memory_list_habits_sorted_values.
    apply StronglySorted_merge_sort; apply _.
  - apply NoDup_Permutation; [by apply sqlite_listed_NoDup|by apply memory_listed_NoDup|].
    exact Hsame.
Qed.

Lemma list_habits_same_on_both_repositories_witness :
  let calls := [AddHabit "Run" "Exercise (minutes)" 30%Q;
                AddHabit "Sleep" "Sleep (hours)" 8%Q;
                AddLog 2 739000 7%Q; DeleteHabit 1;
                AddHabit "Reading" "Study (minutes)" 60%Q] in
  list_habits (run SQLiteRepo.init calls).1 = list_habits (run MemoryRepo.init calls).1.
Proof.
  apply (list_habits_same_on_both_repositories
           [AddHabit "Run" "Exercise (minutes)" 30%Q;
            AddHabit "Sleep" "Sleep (hours)" 8%Q;
            AddLog 2 739000 7%Q; DeleteHabit 1;
            AddHabit "Reading" "Study (minutes)" 60%Q]).
  vm_compute. repeat split; discriminate.
Defined.

(** ** The analysers on the logs of the two repositories *)

Section analysers_on_repositories.
Context `{!Reductions}.

(** After calls that log to existing habits, [get_logs] of the two
    repositories holds the same entries date by date. *)
Lemma get_logs_same_entries_per_date (calls : list call) (k : Z) :
  logs_target_habits MemoryRepo.init calls →
  same_entries_per_date (get_logs (run SQLiteRepo.init calls).1 k)
                        (get_logs (run MemoryRepo.init calls).1 k).
Proof.
  intros Hcalls d.
  destruct (same_content_run calls _ _ same_content_init Hcalls)
    as [(_ & Hlogs & _) _].
  rewrite <- Hlogs. apply SQLiteFacts.get_logs_entries_on.
Qed.

(** X17. After such a sequence of calls, the streak computed from
    [get_logs] is the same on both repositories, for every habit, id
    and day, and for every float arithmetic of pandas: [SQLiteRepo]
    returns the entries of one date in the order of insertion, as
    [MemoryRepo] does, so the float total of every date is the same. *)
Theorem streak_same_on_both_repositories
    (calls : list call) (self : Habit) (today : Z) (k : Z) :
  logs_target_habits MemoryRepo.init calls →
  get_streak (_update_streak self today (get_logs (run SQLiteRepo.init calls).1 k)) =
  get_streak (_update_streak self today (get_logs (run MemoryRepo.init calls).1 k)).
Proof.
  intros Hcalls. by apply streak_of_entries_per_date, get_logs_same_entries_per_date.
Qed.

(** X24. After such a sequence of calls, [StudyHabit.recommendation]
    on [get_logs] is the same, number and sentence, on both
    repositories, for every habit, id and day, and for every float
    arithmetic of pandas.  (The recommendations of Exercise and Sleep
    reduce the rows of the whole window in the order [get_logs] returns
    them, which differs between the repositories.) *)
Theorem study_recommendation_same_on_both_repositories
    (calls : list call) (self : Habit) (today : Z) (k : Z) :
  logs_target_habits MemoryRepo.init calls →
  study_recommendation self today (get_logs (run SQLiteRepo.init calls).1 k) =
  study_recommendation self today (get_logs (run MemoryRepo.init calls).1 k).
Proof.
  intros Hsame%(get_logs_same_entries_per_date calls k)%(last7_of_entries_per_date today).
  unfold study_recommendation, study_consistency, groupby_sum.
  by rewrite (empty_of_entries_per_date _ _ Hsame), (groupby_of_entries_per_date _ _ Hsame).
Qed.

End analysers_on_repositories.

(** Two entries on one day, logged after an entry of the next day. *)
Lemma streak_same_on_both_repositories_witness :
  let calls := [AddHabit "Reading" "Study (minutes)" 60%Q;
                AddLog 1 739000 60%Q; AddLog 1 738999 30%Q; AddLog 1 738999 45%Q] in
  let self := new_habit StudyHabit "Reading" 60%Q in
  get_streak (_update_streak self 739000 (get_logs (run SQLiteRepo.init calls).1 1)) =
  get_streak (_update_streak self 739000 (get_logs (run MemoryRepo.init calls).1 1)).
Proof.
  apply (streak_same_on_both_repositories
           [AddHabit "Reading" "Study (minutes)" 60%Q;
            AddLog 1 739000 60%Q; AddLog 1 738999 30%Q; AddLog 1 738999 45%Q]
           (new_habit StudyHabit "Reading" 60%Q) 739000 1).
  vm_compute. repeat split; discriminate.
Defined.

Lemma study_recommendation_same_on_both_repositories_witness :
  let calls := [AddHabit "Reading" "Study (minutes)" 60%Q;
                AddLog 1 739000 60%Q; AddLog 1 738999 30%Q; AddLog 1 738999 45%Q;
                AddLog 1 738998 20%Q] in
  let self := new_habit StudyHabit "Reading" 60%Q in
  study_recommendation self 739000
    (get_logs (run SQLiteRepo.init calls).1 1) =
  study_recommendation self 739000
    (get_logs (run MemoryRepo.init calls).1 1).
Proof.
  apply (study_recommendation_same_on_both_repositories
           [AddHabit "Reading" "Study (minutes)" 60%Q;
            AddLog 1 739000 60%Q; AddLog 1 738999 30%Q; AddLog 1 738999 45%Q;
            AddLog 1 738998 20%Q]
           (new_habit StudyHabit "Reading" 60%Q) 739000 1).
  vm_compute. repeat split; discriminate.
Defined.

(** The Exercise recommendation does tell the repositories apart:
    entries of 0.3, 2.4 and 3.3 logged from the latest day
    backwards come back in this order from [MemoryRepo], with mean 2,
    and by date from [SQLiteRepo], with the mean just below 2; against
    the target 2 the messages differ. *)
Example exercise_recommendation_differs_between_repositories :
  let dbl := Binary64.double in
  let calls := [AddHabit "Run" "Exercise (minutes)" 2%Q;
                AddLog 1 739000 (dbl (3 # 10)); AddLog 1 738999 (dbl (24 # 10));
                AddLog 1 738998 (dbl (33 # 10))] in
  let self := new_habit ExerciseHabit "Run" 2%Q in
  logs_target_habits MemoryRepo.init calls ∧
  tip (recommendation self 739000
         (get_logs (run MemoryRepo.init calls).1 1)) = REST_DAY ∧
  tip (recommendation self 739000
         (get_logs (run SQLiteRepo.init calls).1 1)) = INCREMENT ∧
  REST_DAY ≠ INCREMENT.
Proof. vm_compute. repeat split; discriminate. Qed.
